(* ===== verification/_CoqProject ===== *)
-Q . S2P
Prelude.v
NavInterface.v
Render.v
Navigation.v
Keyboard.v
Gestures.v
Tabs.v
JsNumber.v
JsValue.v
Page.v
