(* ===== verification/Prelude.v ===== *)
(** * A verification development of the slide-deck controller [src/script.js]

    ** The program

    [src/script.js] drives a single-page presentation of [totalSlides = 8]
    slides.  Its parts, and how they interact:
    - the navigation controller: the global [currentSlide] (line 2), the
      constant [totalSlides] (line 3) and the three operations [nextSlide],
      [prevSlide], [goToSlide] (lines 59-80).  Each changes the index only
      inside its guard, and then re-renders through [updateSlideDisplay];
    - the renderer [updateSlideDisplay] (lines 39-56): marks the slide and
      the indicator at position [currentSlide] active, writes the counter,
      and disables the previous/next buttons at the bounds;
    - three input adapters that only call the controller: the keyboard
      handler [handleKeyPress] (lines 83-107, with [toggleFullscreen],
      lines 110-116), the touch-swipe listeners created in [init]
      (lines 20-35), and the mouse-drag listeners registered at load time
      (lines 130-154);
    - the demo tabs of [initDemoInteraction] (lines 119-127);
    - the page life cycle.  Listeners registered at load time: mouse,
      context menu, visibility (whose handler calls the undefined
      [stopAutoPlay]) and resize.  [init], the tabs and the fade-in run on
      [DOMContentLoaded] (lines 196-207).  The globals [window.nextSlide]
      etc. (lines 215-217) expose the controller.

    ** The library (files in dependency order)

    - [Prelude] (this file): the scope [deck_scope] with JavaScript's strict
      equality [===] on integers, the tactics [zcase]/[zsolve] (case analysis
      on the comparisons of the code), the hint databases [deck] and
      [deck_rw], and the lemmas on one-hot flag lists.  It also holds
      [jsNumberToString], JavaScript's [String(n)] on integers (what
      [textContent = currentSlide] writes), with its parser [decimalToZ],
      both from the Standard Library's decimal numerals.
    - [NavInterface]: what the controller promises its callers.
      - [NavCall] is a call of the public functions ([Next], [Prev],
        [GoTo n]).
      - The typeclass [Navigator] is a state that answers the three calls.
      - Its laws [NavigatorLaws] are stated against the abstract clamping
        specification [Spec]: next is [min (i+1) total], previous is
        [max (i-1) 1], and go-to accepts exactly the targets in [1..total].
      - [perform] runs a list of calls; [perform_spec] is its refinement
        lemma.
      - The adapters' theorems are proved against this interface only.
    - [Render]: the DOM view [View] (the active flags of the slides and of
      the indicators, the counter and total texts, the two button flags)
      and [updateSlideDisplay].
    - [Navigation] (Module [Controller]):
      - the controller state [Deck] (index and view) and [nextSlide],
        [prevSlide], [goToSlide];
      - the [Navigator] instance, and the proof of its laws (the controller
        refines [Spec]);
      - the invariant [deck_ok]: the index is in range and the view shows
        it.
    - [Keyboard] (Module [Keys]): [handleKeyPress] as a function from
      [e.key] to the calls it makes, whether it prevents the default, and
      whether it toggles fullscreen; [toggleFullscreen] against the host
      interface class [Fullscreen] and its laws (a host that grants the
      requests at once; the page uses a boolean host).
    - [Gestures] (Modules [Touch], [Mouse]): the touch variables and
      [handleSwipe], the mouse variables and the [mousedown]/[mouseup]
      listeners; each listener returns its new state and its calls.
    - [Tabs] (Module [DemoTabs]): the tab click listener.
    - [JsNumber] (Module [JsNumbers]): the controller and renderer over
      JavaScript numbers (rationals and [NaN], with JavaScript's
      comparisons).  It is used for what [window.goToSlide] does with
      non-integer arguments, and to show that with integer arguments it
      refines [Spec] through the integer model ([jCall_embed]).
    - [JsValue] (Module [JsValues]): the controller over any JavaScript
      value [JsVal] (number, string, boolean, null, undefined): the guards
      coerce with [ToNumber], the renderer's [===] does not, and [++]/[--]
      store a number.  [ToNumber] on strings is the Section variable
      [stringToNumber]; the theorems assume only that it reads the decimal
      text of an integer as that integer.
    - [Page] (Module [Page]): the whole page.
      - [Page] is its state, [Event] the events it receives.
      - [handle] runs the listeners an event reaches, with their
        registration times; [dispatch] then performs the controller calls.
      - [deliverable] lists the events the host can deliver; [reachable]
        (an inductive step relation) is the set of pages a session reaches;
        [run] executes a session.

    ** Theorems (claim ids C1..C33 in the doc comments)

    Every claim is stated for all inputs (decks, pages, positions, numbers,
    values); the witnesses only apply them at one input.
    - Invariant and refinement of the whole page:
      - C1: over 8 slides, every reachable page has its index in [1..8].
        Once initialised, exactly the slide and the indicator at the index
        are active, the counter and the total are right, and the buttons
        are disabled exactly at the bounds.  [GlobalCall] carries integer
        arguments only; other arguments are C26-C32.
      - C2: every event moves the index as [Spec] runs the calls of its
        listeners.
      - C25 (liveness): every slide is reachable by keys.
      - C33: if the HTML has at most one active tab, so has every
        reachable page (rule induction on [reachable]).
    - The renderer and the controller on every branch (C3-C8): the bounds
      are idempotent clamps; [goToSlide] rejects out-of-range targets and
      accepts the rest; any call sequence refines [Spec].
    - The adapters:
      - key table (C9-C12);
      - swipe and drag (C13-C18): at most one call per swipe; a swipe
        depends only on its own touchstart and touchend; the drag and the
        swipe have the same polarity; a drag disarms on mouseup; every
        armed drag survives a mousedown outside the slides; a second finger
        overwrites the start position of the first;
      - tabs (C23).
    - The life cycle (C19-C22, C24): the visibility handler throws when
      hidden; keys and touches are ignored before init while every armed
      drag already navigates; the effect of [DOMContentLoaded] and of the
      fade-in; the context menu.
    - JavaScript numbers (C26-C29): with integer arguments the number model
      refines [Spec].  Every fractional target in [1..8] is accepted with no
      slide shown, and lets the index leave [1..8] through [prevSlide] or
      [nextSlide].  [NaN] and out-of-range numbers are rejected.
    - JavaScript values (C30-C32): over any calls with any values, the index
      stops being a number only through an accepted [goToSlide], and then
      no slide is shown.  [goToSlide("3")] is accepted, stores a string and
      leaves no slide active until [nextSlide]/[prevSlide] make it a number
      again.  [goToSlide(true)] is accepted too; [false], [null] and
      [undefined] are rejected.

    ** Bounds, fuel and what is not modelled

    All handlers are straight-line code or a [forEach] over a finite
    list (structural recursion), and [run] and [perform] recurse on the list
    of events or calls.  So every definition is total by construction and
    no fuel is needed: there is no loop whose termination is a theorem.
    Pixel coordinates and the index are unbounded integers [Z]: the
    JavaScript numbers involved are small integers, exact in a double, and
    [JsNumber] covers non-integer arguments with exact rationals (exact for
    the values there).

    The HTML (slide and indicator elements, buttons and their [onclick]
    attributes, tabs) is not in [src/].  The number of slide and indicator
    elements is the length of the lists in the loaded view.  Buttons and
    indicators are modelled as calls of the global functions
    ([GlobalCall]).

    Not modelled, because none of them changes state of the script:
    - [printSlides] (only [window.print()]);
    - the [console.log] banner;
    - the [resize] listener (empty body);
    - visual styling and the CSS transition.

    [Infinity] is not a separate value: a JavaScript number is a rational
    or [NaN].  The browser's fullscreen API is the class [Fullscreen]; that
    browsers refuse [requestFullscreen] outside a user activation (an
    [Escape] keydown is none) and consume [Escape] in fullscreen is not
    modelled, so C12 holds for a host that grants requests.

    ** Plan for the parts still open

    Every function of [src/script.js] that changes state is modelled.  What
    could still be added: the [Infinity] values of JavaScript numbers, and
    object arguments of [window.goToSlide] (their [valueOf]). *)

From stdpp Require Export base list strings sets.
From Stdlib Require Export ZArith Lia.
From Stdlib Require Decimal DecimalString DecimalZ DecimalPos.

Declare Scope deck_scope.
Delimit Scope deck_scope with deck.

(** JavaScript's strict equality on numbers. *)
Notation "x === y" := (Z.eqb x y) (at level 70, no associativity) : deck_scope.

Open Scope Z_scope.
Open Scope deck_scope.

(** ** Counting the set flags of a list of class flags *)

Fixpoint count_true (l : list bool) : nat :=
  match l with
  | [] => 0%nat
  | b :: l' => ((if b then 1 else 0) + count_true l')%nat
  end.

(** The flags [index + 1 === k] over a list, starting at offset [n]. *)
Definition one_hot_from {A} (n : nat) (k : Z) (l : list A) : list bool :=
  imap (fun i _ => Z.of_nat (n + i) + 1 === k) l.

Create HintDb deck.
Create Rewrite HintDb deck_rw.

(** ** Case analysis on the comparisons of the code *)

Ltac zcase :=
  repeat rewrite ?Z.geb_leb, ?Z.gtb_ltb in *;
  repeat match goal with
  | |- context [Z.ltb ?a ?b] => destruct (Z.ltb_spec a b)
  | |- context [Z.leb ?a ?b] => destruct (Z.leb_spec a b)
  | |- context [Z.eqb ?a ?b] => destruct (Z.eqb_spec a b)
  | H : context [Z.ltb ?a ?b] |- _ => destruct (Z.ltb_spec a b)
  | H : context [Z.leb ?a ?b] |- _ => destruct (Z.leb_spec a b)
  | H : context [Z.eqb ?a ?b] |- _ => destruct (Z.eqb_spec a b)
  end.

Ltac zsolve := zcase; simpl in *; try solve [lia | congruence | done].

Section OneHot.
Context {A : Type}.

Lemma one_hot_from_cons n k (x : A) l :
  one_hot_from n k (x :: l) = (Z.of_nat n + 1 === k) :: one_hot_from (S n) k l.
Proof.
  unfold one_hot_from. rewrite imap_cons, Nat.add_0_r. f_equal.
  apply imap_ext. intros i y _. simpl. by rewrite Nat.add_succ_r.
Qed.

Lemma length_one_hot_from n k (l : list A) :
  length (one_hot_from n k l) = length l.
Proof. apply length_imap. Qed.

Lemma lookup_one_hot_from n k (l : list A) i :
  (i < length l)%nat ->
  one_hot_from n k l !! i = Some (Z.of_nat (n + i) + 1 === k).
Proof.
  intros Hi. unfold one_hot_from. rewrite list_lookup_imap.
  destruct (lookup_lt_is_Some_2 l i Hi) as [y ->]. done.
Qed.

Lemma count_one_hot_from n k (l : list A) :
  count_true (one_hot_from n k l) =
    if (Z.of_nat n + 1 <=? k) && (k <=? Z.of_nat n + Z.of_nat (length l))
    then 1%nat else 0%nat.
Proof.
  revert n. induction l as [|x l IH]; intros n.
  - simpl. zsolve.
  - rewrite one_hot_from_cons. simpl count_true. rewrite IH.
    simpl length. rewrite Nat2Z.inj_succ. zsolve.
Qed.
End OneHot.

(** The flags depend on the elements only through their number. *)
Lemma one_hot_from_length {A B} n k (l1 : list A) (l2 : list B) :
  length l1 = length l2 -> one_hot_from n k l1 = one_hot_from n k l2.
Proof.
  revert n l2. induction l1 as [|x l1 IH]; intros n [|y l2] Hl; try done.
  rewrite !one_hot_from_cons. f_equal. apply IH. simpl in Hl. lia.
Qed.

(** A list of flags that are all false has no set flag. *)
Lemma count_true_imap_false {A} (f : nat -> A -> bool) (l : list A) :
  (forall i x, f i x = false) -> count_true (imap f l) = 0%nat.
Proof.
  revert f. induction l as [|x l IH]; intros f Hf; [done|].
  rewrite imap_cons. simpl. rewrite Hf, IH; [done|]. intros i y. apply Hf.
Qed.

(** ** Numbers written as text

    Assigning a number to [textContent] stores [String(n)]; for an integer
    [n] that is its decimal representation, with a leading [-] when it is
    negative (the [Decimal] printer of the Standard Library).  Reading the
    text back with [Number(s)] inverts it. *)
Definition jsNumberToString (z : Z) : string :=
  DecimalString.NilZero.string_of_int (Z.to_int z).

Definition decimalToZ (s : string) : option Z :=
  option_map Z.of_int (DecimalString.NilZero.int_of_string s).

Lemma decimalToZ_jsNumberToString z : decimalToZ (jsNumberToString z) = Some z.
Proof.
  unfold decimalToZ, jsNumberToString.
  rewrite DecimalString.NilZero.isi; [simpl; f_equal; apply DecimalZ.of_to | |];
    destruct z as [|p|p]; simpl; try discriminate;
    intros [= H]; exact (DecimalPos.Unsigned.to_uint_nonnil p H).
Qed.

#[export] Hint Rewrite @length_one_hot_from decimalToZ_jsNumberToString : deck_rw.
