(* ===== verification/NavInterface.v ===== *)
(** * The controller's contract to its callers

    The input adapters of [src/script.js] never touch [currentSlide]: they
    call [nextSlide()], [prevSlide()] and [goToSlide(n)] (and the globals of
    lines 215-217 expose the same three functions).  This file states what
    those three calls promise, as the typeclass [Navigator] with the laws
    [NavigatorLaws], against the abstract clamping specification [Spec].
    The adapters' theorems ([Keyboard], [Gestures]) use only this file. *)

From S2P Require Import Prelude.

(** A call of the controller's public functions. *)
Inductive NavCall :=
| Next                 (* nextSlide() *)
| Prev                 (* prevSlide() *)
| GoTo (n : Z).        (* goToSlide(n) *)

#[export] Instance NavCall_eq_dec : EqDecision NavCall.
Proof. solve_decision. Qed.

(** ** The abstract specification: an index clamped to [1..total] *)
Module Spec.
Definition in_deck (total i : Z) : Prop := 1 <= i <= total.
Definition in_deckb (total i : Z) : bool := (1 <=? i) && (i <=? total).

Definition next (total i : Z) : Z := Z.min (i + 1) total.
Definition prev (i : Z) : Z := Z.max (i - 1) 1.
Definition goto (total n i : Z) : Z := if in_deckb total n then n else i.

Definition apply (total : Z) (c : NavCall) (i : Z) : Z :=
  match c with
  | Next => next total i
  | Prev => prev i
  | GoTo n => goto total n i
  end.

Definition run (total : Z) (cs : list NavCall) (i : Z) : Z :=
  fold_left (fun j c => apply total c j) cs i.

#[export] Instance in_deck_dec total i : Decision (in_deck total i).
Proof. unfold in_deck. apply _. Defined.

Lemma in_deckb_spec total i : in_deckb total i = true <-> in_deck total i.
Proof. unfold in_deckb, in_deck. zsolve; split; intros; zsolve. Qed.

Lemma apply_in_deck total c i :
  1 <= total -> in_deck total i -> in_deck total (apply total c i).
Proof.
  intros Ht. unfold in_deck. destruct c as [| |n]; simpl;
    unfold next, prev, goto, in_deckb; zsolve.
Qed.

Lemma run_in_deck total cs i :
  1 <= total -> in_deck total i -> in_deck total (run total cs i).
Proof.
  intros Ht. revert i. induction cs as [|c cs IH]; intros i Hi; simpl; auto.
  apply IH, apply_in_deck; auto.
Qed.
End Spec.

#[export] Hint Resolve Spec.apply_in_deck Spec.run_in_deck : deck.

(** ** The interface *)
Class Navigator (S : Type) := {
  nav_index : S -> Z;
  nav_next : S -> S;
  nav_prev : S -> S;
  nav_goto : Z -> S -> S
}.

Definition nav_call {S} `{Navigator S} (c : NavCall) (s : S) : S :=
  match c with
  | Next => nav_next s
  | Prev => nav_prev s
  | GoTo n => nav_goto n s
  end.

(** The calls one handler makes, in order. *)
Definition perform {S} `{Navigator S} (cs : list NavCall) (s : S) : S :=
  fold_left (fun s' c => nav_call c s') cs s.

(** The laws: on a state whose index is in the deck, each call moves the
    index as [Spec] says. *)
Class NavigatorLaws (S : Type) `{Navigator S} (total : Z) : Prop := {
  nav_total_pos : 1 <= total;
  nav_next_spec s :
    Spec.in_deck total (nav_index s) ->
    nav_index (nav_next s) = Spec.next total (nav_index s);
  nav_prev_spec s :
    Spec.in_deck total (nav_index s) ->
    nav_index (nav_prev s) = Spec.prev (nav_index s);
  nav_goto_spec n s :
    Spec.in_deck total (nav_index s) ->
    nav_index (nav_goto n s) = Spec.goto total n (nav_index s)
}.

Section Laws.
Context {S : Type} `{Navigator S} (total : Z) `{!NavigatorLaws S total}.

Lemma nav_call_spec c s :
  Spec.in_deck total (nav_index s) ->
  nav_index (nav_call c s) = Spec.apply total c (nav_index s).
Proof.
  destruct c; simpl; [apply nav_next_spec | apply nav_prev_spec | apply nav_goto_spec].
Qed.

(** Refinement: running the calls on the implementation moves the index
    as running them on the specification does. *)
Lemma perform_spec cs s :
  Spec.in_deck total (nav_index s) ->
  nav_index (perform cs s) = Spec.run total cs (nav_index s) /\
  Spec.in_deck total (nav_index (perform cs s)).
Proof.
  revert s. induction cs as [|c cs IH]; intros s Hs; simpl; [done|].
  rewrite <- (nav_call_spec c s Hs). apply IH.
  rewrite nav_call_spec by done.
  apply Spec.apply_in_deck; [exact nav_total_pos | exact Hs].
Qed.

Lemma perform_index cs s :
  Spec.in_deck total (nav_index s) ->
  nav_index (perform cs s) = Spec.run total cs (nav_index s).
Proof. intros Hs. by apply perform_spec. Qed.
End Laws.

Lemma perform_app {S} `{Navigator S} cs1 cs2 (s : S) :
  perform (cs1 ++ cs2) s = perform cs2 (perform cs1 s).
Proof. unfold perform. apply fold_left_app. Qed.

#[export] Hint Rewrite @perform_app : deck_rw.
