(* ===== verification/Render.v ===== *)
(** * The renderer [updateSlideDisplay] (src/script.js, lines 39-56)

    The DOM state the renderer writes is the record [View]: the [active]
    class of every [.slide] element and of every [.indicator] element (in
    document order), the text of [#current-slide] and [#total-slides], and
    the [disabled] property of the previous and next buttons.  The number of
    slide and indicator elements comes from the HTML, which is not under
    [src/]: it is the length of the two lists and never changes. *)

From S2P Require Import Prelude.

(** [const totalSlides = 8] (line 3). *)
Definition totalSlides : Z := 8.

Record View := mkView {
  slideActive : list bool;        (* slides[i].classList.contains('active') *)
  indicatorActive : list bool;    (* indicators[i].classList.contains('active') *)
  currentSlideText : string;      (* currentSlideSpan.textContent *)
  totalSlidesText : string;       (* totalSlidesSpan.textContent *)
  prevDisabled : bool;            (* prevBtn.disabled *)
  nextDisabled : bool             (* nextBtn.disabled *)
}.

(** [els.forEach((el, index) => el.classList.toggle('active',
    index + 1 === currentSlide))]: the forced toggle sets the flag to the
    condition. *)
Definition activeFlags (currentSlide : Z) (els : list bool) : list bool :=
  imap (fun index _ => Z.of_nat index + 1 === currentSlide) els.

Definition updateSlideDisplay (currentSlide : Z) (v : View) : View :=
  {| slideActive := activeFlags currentSlide (slideActive v);
     indicatorActive := activeFlags currentSlide (indicatorActive v);
     currentSlideText := jsNumberToString currentSlide;
     totalSlidesText := totalSlidesText v;
     prevDisabled := currentSlide === 1;
     nextDisabled := currentSlide === totalSlides |}.

(** The view shows the index [cur]: rendering it again changes nothing. *)
Definition rendered (cur : Z) (v : View) : Prop := updateSlideDisplay cur v = v.

(** A view with [n] slides and [n] indicators, as the HTML gives it before
    any script runs (no class set, counter empty, buttons enabled). *)
Definition htmlView (n : nat) : View :=
  {| slideActive := replicate n false; indicatorActive := replicate n false;
     currentSlideText := ""; totalSlidesText := "";
     prevDisabled := false; nextDisabled := false |}.

Lemma activeFlags_one_hot cur (els : list bool) :
  activeFlags cur els = one_hot_from 0 cur els.
Proof. reflexivity. Qed.

Lemma length_activeFlags cur els : length (activeFlags cur els) = length els.
Proof. apply length_imap. Qed.

Lemma activeFlags_idem cur cur' els :
  activeFlags cur (activeFlags cur' els) = activeFlags cur els.
Proof.
  rewrite !activeFlags_one_hot. apply one_hot_from_length.
  apply length_activeFlags.
Qed.

Lemma updateSlideDisplay_idem cur cur' v :
  updateSlideDisplay cur (updateSlideDisplay cur' v) = updateSlideDisplay cur v.
Proof. unfold updateSlideDisplay; simpl. by rewrite !activeFlags_idem. Qed.

Lemma rendered_update cur v : rendered cur (updateSlideDisplay cur v).
Proof. apply updateSlideDisplay_idem. Qed.

Lemma updateSlideDisplay_lengths cur v :
  length (slideActive (updateSlideDisplay cur v)) = length (slideActive v) /\
  length (indicatorActive (updateSlideDisplay cur v)) = length (indicatorActive v).
Proof. split; apply length_activeFlags. Qed.

#[export] Hint Resolve rendered_update : deck.
#[export] Hint Rewrite length_activeFlags activeFlags_idem updateSlideDisplay_idem : deck_rw.

(** C3: After [updateSlideDisplay cur], when [cur] is a position of the
    slides and of the indicators, exactly one slide is active, the one at
    position [cur - 1], and likewise exactly one indicator; the counter
    shows [cur]; the previous button is disabled iff [cur = 1] and the next
    button iff [cur = totalSlides]. *)
Theorem updateSlideDisplay_shows_index cur v :
  1 <= cur <= Z.of_nat (length (slideActive v)) ->
  1 <= cur <= Z.of_nat (length (indicatorActive v)) ->
  let v' := updateSlideDisplay cur v in
  count_true (slideActive v') = 1%nat /\
  slideActive v' !! Z.to_nat (cur - 1) = Some true /\
  count_true (indicatorActive v') = 1%nat /\
  indicatorActive v' !! Z.to_nat (cur - 1) = Some true /\
  currentSlideText v' = jsNumberToString cur /\
  (prevDisabled v' = true <-> cur = 1) /\
  (nextDisabled v' = true <-> cur = totalSlides).
Proof.
  intros Hs Hi v'. subst v'. cbn -[activeFlags].
  rewrite (activeFlags_one_hot cur (slideActive v)),
    (activeFlags_one_hot cur (indicatorActive v)), !count_one_hot_from,
    !lookup_one_hot_from, !Nat.add_0_l, !Z2Nat.id by lia.
  repeat split; zcase; simpl; intros; solve [lia | congruence].
Qed.

Lemma updateSlideDisplay_shows_index_witness :
  (1 <= 3 <= Z.of_nat (length (slideActive (htmlView 8))) /\
   1 <= 3 <= Z.of_nat (length (indicatorActive (htmlView 8)))) /\
  count_true (slideActive (updateSlideDisplay 3 (htmlView 8))) = 1%nat.
Proof.
  assert (H1 : 1 <= 3 <= Z.of_nat (length (slideActive (htmlView 8)))) by (simpl; lia).
  assert (H2 : 1 <= 3 <= Z.of_nat (length (indicatorActive (htmlView 8)))) by (simpl; lia).
  split; [split; assumption|].
  exact (proj1 (updateSlideDisplay_shows_index 3 (htmlView 8) H1 H2)).
Defined.

Lemma rendered_lookup cur (els : list bool) i :
  activeFlags cur els = els -> (i < length els)%nat ->
  els !! i = Some (Z.of_nat i + 1 === cur).
Proof.
  intros H Hi. rewrite <- H, activeFlags_one_hot.
  by apply lookup_one_hot_from.
Qed.

Lemma rendered_count cur (els : list bool) :
  activeFlags cur els = els -> 1 <= cur <= Z.of_nat (length els) ->
  count_true els = 1%nat.
Proof.
  intros H Hc. rewrite <- H, activeFlags_one_hot, count_one_hot_from.
  zsolve.
Qed.

(** What a rendered view shows (the helper of the claims below and of the
    page invariant). *)
Lemma rendered_view cur v :
  rendered cur v ->
  1 <= cur <= Z.of_nat (length (slideActive v)) ->
  1 <= cur <= Z.of_nat (length (indicatorActive v)) ->
  count_true (slideActive v) = 1%nat /\
  slideActive v !! Z.to_nat (cur - 1) = Some true /\
  count_true (indicatorActive v) = 1%nat /\
  indicatorActive v !! Z.to_nat (cur - 1) = Some true /\
  currentSlideText v = jsNumberToString cur /\
  (prevDisabled v = true <-> cur = 1) /\
  (nextDisabled v = true <-> cur = totalSlides).
Proof.
  intros Hr Hs Hi. unfold rendered, updateSlideDisplay in Hr.
  destruct v as [sl ind ct tt pd nd]; simpl in *. injection Hr as Hsl Hind Hct Hpd Hnd.
  subst ct pd nd.
  rewrite (rendered_lookup cur sl), (rendered_lookup cur ind) by (done || lia).
  rewrite (rendered_count cur sl), (rendered_count cur ind) by done.
  rewrite Z2Nat.id by lia.
  repeat split; zsolve.
Qed.

