(* ===== verification/Navigation.v ===== *)
(** * The navigation controller (src/script.js, lines 2-3 and 59-80)

    The controller's state is the global [let currentSlide = 1] together
    with the DOM view it renders ([Deck]).  [nextSlide], [prevSlide] and
    [goToSlide] change the index only inside their guard, and re-render only
    then: outside the guard the whole state, view included, is unchanged.
    The file gives the [Navigator] instance of [Deck], proves its laws (the
    refinement of the controller to the clamping specification [Spec]), and
    the invariant "index in [1..8] and view rendered from the index". *)

From S2P Require Import Prelude NavInterface Render.

Module Controller.

Record Deck := mkDeck {
  currentSlide : Z;
  view : View
}.

(** [nextSlide] (lines 59-64). *)
Definition nextSlide (d : Deck) : Deck :=
  if currentSlide d <? totalSlides then
    let c := currentSlide d + 1 in
    mkDeck c (updateSlideDisplay c (view d))
  else d.

(** [prevSlide] (lines 67-72). *)
Definition prevSlide (d : Deck) : Deck :=
  if currentSlide d >? 1 then
    let c := currentSlide d - 1 in
    mkDeck c (updateSlideDisplay c (view d))
  else d.

(** [goToSlide(slideNumber)] (lines 75-80). *)
Definition goToSlide (slideNumber : Z) (d : Deck) : Deck :=
  if (slideNumber >=? 1) && (slideNumber <=? totalSlides) then
    mkDeck slideNumber (updateSlideDisplay slideNumber (view d))
  else d.

#[export] Instance deck_navigator : Navigator Deck := {|
  nav_index := currentSlide;
  nav_next := nextSlide;
  nav_prev := prevSlide;
  nav_goto := goToSlide
|}.

(** The controller's invariant: the index is a slide of the deck and the
    view shows it. *)
Definition deck_ok (d : Deck) : Prop :=
  Spec.in_deck totalSlides (currentSlide d) /\ rendered (currentSlide d) (view d).

(** The deck at [currentSlide = 1] after [init]'s first render, over an
    HTML page with [n] slides and [n] indicators. *)
Definition initDeck (n : nat) : Deck :=
  mkDeck 1 (updateSlideDisplay 1 (htmlView n)).

Ltac unfold_ops := unfold nextSlide, prevSlide, goToSlide, Spec.next, Spec.prev,
  Spec.goto, Spec.in_deckb, Spec.in_deck, totalSlides in *.

Lemma nextSlide_index d :
  Spec.in_deck totalSlides (currentSlide d) ->
  currentSlide (nextSlide d) = Spec.next totalSlides (currentSlide d).
Proof. unfold_ops. intros. zsolve. Qed.

Lemma prevSlide_index d :
  Spec.in_deck totalSlides (currentSlide d) ->
  currentSlide (prevSlide d) = Spec.prev (currentSlide d).
Proof. unfold_ops. intros. zsolve. Qed.

Lemma goToSlide_index n d :
  currentSlide (goToSlide n d) = Spec.goto totalSlides n (currentSlide d).
Proof. unfold_ops. zsolve. Qed.

#[export] Instance deck_navigator_laws : NavigatorLaws Deck totalSlides.
Proof.
  split.
  - unfold totalSlides. lia.
  - apply nextSlide_index.
  - apply prevSlide_index.
  - intros n d _. apply goToSlide_index.
Qed.

(** Each operation either leaves the deck unchanged or moves to a new
    index and renders it. *)
Lemma nav_call_cases c d :
  nav_call c d = d \/
  exists k, nav_call c d = mkDeck k (updateSlideDisplay k (view d)).
Proof.
  destruct c; simpl; unfold_ops;
    repeat case_match; eauto.
Qed.

Lemma nav_call_ok c d : deck_ok d -> deck_ok (nav_call c d).
Proof.
  intros [Hin Hr]. split.
  - change (Spec.in_deck totalSlides (nav_index (nav_call c d))).
    rewrite (nav_call_spec totalSlides) by done.
    apply Spec.apply_in_deck; [unfold totalSlides; lia | done].
  - destruct (nav_call_cases c d) as [-> | [k ->]]; [done|]. apply rendered_update.
Qed.

Lemma nav_call_lengths c d :
  length (slideActive (view (nav_call c d))) = length (slideActive (view d)) /\
  length (indicatorActive (view (nav_call c d))) = length (indicatorActive (view d)).
Proof.
  destruct (nav_call_cases c d) as [-> | [k ->]]; [done|].
  apply updateSlideDisplay_lengths.
Qed.

(** What rendering never changes: the number of slides and indicators and
    the total shown in [#total-slides]. *)
Definition view_shape (v : View) : nat * nat * string :=
  (length (slideActive v), length (indicatorActive v), totalSlidesText v).

Lemma nav_call_shape c d : view_shape (view (nav_call c d)) = view_shape (view d).
Proof.
  destruct (nav_call_cases c d) as [-> | [k ->]]; [done|].
  unfold view_shape; simpl. by rewrite !length_activeFlags.
Qed.

Lemma perform_shape cs d : view_shape (view (perform cs d)) = view_shape (view d).
Proof.
  revert d. induction cs as [|c cs IH]; intros d; simpl; [done|].
  by rewrite IH, nav_call_shape.
Qed.

Lemma perform_in_deck cs d :
  Spec.in_deck totalSlides (currentSlide d) ->
  Spec.in_deck totalSlides (currentSlide (perform cs d)).
Proof. intros Hd. exact (proj2 (perform_spec totalSlides cs d Hd)). Qed.

Lemma perform_rendered cs d :
  Spec.in_deck totalSlides (currentSlide d) -> rendered (currentSlide d) (view d) ->
  rendered (currentSlide (perform cs d)) (view (perform cs d)).
Proof.
  intros Hin Hr. revert d Hin Hr. induction cs as [|c cs IH]; intros d Hin Hr; simpl; [done|].
  destruct (nav_call_ok c d) as [Hin' Hr']; [by split|]. by apply IH.
Qed.

Lemma perform_ok cs d : deck_ok d -> deck_ok (perform cs d).
Proof.
  revert d. induction cs as [|c cs IH]; intros d Hd; simpl; auto using nav_call_ok.
Qed.

(** A call sequence that moves the index leaves a view that shows the new
    index, even from a view that was never rendered. *)
Lemma perform_moved_rendered cs d :
  Spec.in_deck totalSlides (currentSlide d) ->
  currentSlide (perform cs d) <> currentSlide d ->
  rendered (currentSlide (perform cs d)) (view (perform cs d)).
Proof.
  revert d. induction cs as [|c cs IH]; intros d Hin Hmv; simpl in *; [done|].
  pose proof (perform_in_deck [c] d Hin) as Hin'; simpl in Hin'.
  destruct (nav_call_cases c d) as [Hc | [k Hc]]; rewrite Hc in *; [by apply IH|].
  apply perform_rendered; [done | apply rendered_update].
Qed.

#[export] Hint Resolve nav_call_ok perform_ok perform_in_deck perform_rendered : deck.
#[export] Hint Rewrite perform_shape : deck_rw.

(** ** Properties of the controller *)

(** C4: [nextSlide] at the last slide changes nothing, not even the view
    (the upper clamp is idempotent). *)
Theorem nextSlide_at_last d :
  currentSlide d = totalSlides -> nextSlide d = d.
Proof. intros H. unfold nextSlide. rewrite H. zsolve. Qed.

Lemma nextSlide_at_last_witness :
  currentSlide (initDeck 8) = 1 /\
  nextSlide (mkDeck totalSlides (htmlView 8)) = mkDeck totalSlides (htmlView 8).
Proof. split; [reflexivity | apply nextSlide_at_last; reflexivity]. Defined.

(** C5: [prevSlide] at the first slide changes nothing. *)
Theorem prevSlide_at_first d :
  currentSlide d = 1 -> prevSlide d = d.
Proof. intros H. unfold prevSlide. rewrite H. zsolve. Qed.

Lemma prevSlide_at_first_witness :
  prevSlide (initDeck 8) = initDeck 8.
Proof. apply prevSlide_at_first. reflexivity. Defined.

(** C6: [goToSlide n] with [n] outside [1..totalSlides] is silently
    ignored: the deck, view included, is unchanged. *)
Theorem goToSlide_rejects n d :
  ~ Spec.in_deck totalSlides n -> goToSlide n d = d.
Proof. unfold_ops. intros Hn. zsolve. Qed.

Lemma goToSlide_rejects_witness :
  goToSlide 0 (initDeck 8) = initDeck 8 /\ goToSlide 9 (initDeck 8) = initDeck 8.
Proof.
  split; apply goToSlide_rejects; unfold Spec.in_deck, totalSlides; lia.
Defined.

(** C7: [goToSlide n] with [n] in [1..totalSlides] moves to [n] and renders
    it: on a page of [totalSlides] slides and indicators, exactly the slide
    and the indicator at position [n] are active. *)
Theorem goToSlide_accepts n d :
  Spec.in_deck totalSlides n ->
  length (slideActive (view d)) = Z.to_nat totalSlides ->
  length (indicatorActive (view d)) = Z.to_nat totalSlides ->
  let d' := goToSlide n d in
  currentSlide d' = n /\ rendered n (view d') /\
  count_true (slideActive (view d')) = 1%nat /\
  slideActive (view d') !! Z.to_nat (n - 1) = Some true /\
  count_true (indicatorActive (view d')) = 1%nat /\
  indicatorActive (view d') !! Z.to_nat (n - 1) = Some true.
Proof.
  intros Hn Hs Hi d'.
  assert (Hd : d' = mkDeck n (updateSlideDisplay n (view d))).
  { subst d'. unfold_ops. zsolve. }
  rewrite Hd; simpl.
  unfold Spec.in_deck, totalSlides in *.
  destruct (rendered_view n (updateSlideDisplay n (view d))) as (? & ? & ? & ? & _).
  - apply rendered_update.
  - simpl. rewrite length_activeFlags, Hs. lia.
  - simpl. rewrite length_activeFlags, Hi. lia.
  - repeat split; auto using rendered_update.
Qed.

Lemma goToSlide_accepts_witness :
  (Spec.in_deck totalSlides 5 /\
   length (slideActive (view (initDeck 8))) = Z.to_nat totalSlides /\
   length (indicatorActive (view (initDeck 8))) = Z.to_nat totalSlides) /\
  currentSlide (goToSlide 5 (initDeck 8)) = 5.
Proof.
  split; [split; [unfold Spec.in_deck, totalSlides; lia | split; reflexivity]|].
  apply (goToSlide_accepts 5 (initDeck 8));
    [unfold Spec.in_deck, totalSlides; lia | reflexivity | reflexivity].
Defined.

(** C8: Refinement: from a deck whose index is in range and whose view
    shows it, any sequence of controller calls keeps both facts and moves
    the index exactly as the clamping specification [Spec.run] does. *)
Theorem deck_refines_spec cs d :
  deck_ok d ->
  deck_ok (perform cs d) /\
  currentSlide (perform cs d) = Spec.run totalSlides cs (currentSlide d).
Proof.
  intros Hd. split; [auto with deck|].
  exact (perform_index totalSlides cs d (proj1 Hd)).
Qed.

Lemma deck_refines_spec_witness :
  deck_ok (initDeck 8) /\
  currentSlide (perform [Next; Next; Prev; GoTo 7; Next; Next] (initDeck 8)) = 8.
Proof.
  assert (H : deck_ok (initDeck 8)).
  { split; [unfold Spec.in_deck, totalSlides; simpl; lia | apply rendered_update]. }
  split; [exact H|].
  rewrite (proj2 (deck_refines_spec [Next; Next; Prev; GoTo 7; Next; Next] _ H)).
  reflexivity.
Defined.

End Controller.
