(* ===== verification/Keyboard.v ===== *)
(** * The keyboard adapter (src/script.js, lines 83-116)

    [handleKeyPress(e)] switches on [e.key].  Its effect is modelled as a
    [KeyResult]: the controller calls it makes, in order, whether it calls
    [e.preventDefault()], and whether it calls [toggleFullscreen()].  The
    fullscreen API of the host ([document.fullscreenElement],
    [requestFullscreen], [exitFullscreen]) is the typeclass [Fullscreen],
    with the laws [FullscreenLaws] a host that grants the requests obeys.
    Browsers grant [requestFullscreen] only during a user activation, which
    an [Escape] keydown is not, and they consume [Escape] themselves to
    leave fullscreen; the laws describe a host that grants at once, so the
    [Escape] branch is modelled as the code states it.  The theorems are
    proved against [NavInterface] only. *)

From S2P Require Import Prelude NavInterface Render Navigation.
Import Controller.

Module Keys.

Record KeyResult := mkKeyResult {
  key_calls : list NavCall;     (* controller calls, in order *)
  key_prevented : bool;         (* e.preventDefault() was called *)
  key_toggle : bool             (* toggleFullscreen() was called *)
}.

Local Open Scope string_scope.

(** [handleKeyPress] (lines 83-107); [case 'ArrowRight': case ' ':] share
    one body. *)
Definition handleKeyPress (key : string) : KeyResult :=
  if (key =? "ArrowRight") || (key =? " ") then mkKeyResult [Next] true false
  else if key =? "ArrowLeft" then mkKeyResult [Prev] true false
  else if key =? "Home" then mkKeyResult [GoTo 1] true false
  else if key =? "End" then mkKeyResult [GoTo totalSlides] true false
  else if key =? "Escape" then mkKeyResult [] false true
  else mkKeyResult [] false false.

Local Close Scope string_scope.

(** The keys the switch recognises. *)
Definition handledKeys : list string :=
  ["ArrowRight"; " "; "ArrowLeft"; "Home"; "End"; "Escape"]%string.

(** ** The host's fullscreen API *)
Class Fullscreen (H : Type) := {
  fullscreenElement : H -> bool;    (* document.fullscreenElement !== null *)
  requestFullscreen : H -> H;       (* document.documentElement.requestFullscreen() *)
  exitFullscreen : H -> H           (* document.exitFullscreen() *)
}.

Class FullscreenLaws (H : Type) `{Fullscreen H} : Prop := {
  request_enters h : fullscreenElement (requestFullscreen h) = true;
  exit_leaves h : fullscreenElement (exitFullscreen h) = false
}.

(** [toggleFullscreen] (lines 110-116). *)
Definition toggleFullscreen {H} `{Fullscreen H} (h : H) : H :=
  if negb (fullscreenElement h) then requestFullscreen h else exitFullscreen h.

(** The host reduced to the fullscreen flag, granting every request. *)
#[export] Instance bool_fullscreen : Fullscreen bool := {|
  fullscreenElement := fun b => b;
  requestFullscreen := fun _ => true;
  exitFullscreen := fun _ => false
|}.

#[export] Instance bool_fullscreen_laws : FullscreenLaws bool.
Proof. by split. Qed.

Lemma handleKeyPress_unhandled key :
  key ∉ handledKeys -> handleKeyPress key = mkKeyResult [] false false.
Proof.
  intros Hk. unfold handleKeyPress, handledKeys in *.
  repeat match goal with
  | |- context [String.eqb key ?s] => destruct (String.eqb_spec key s)
  end; simpl; try done; subst; set_solver.
Qed.

Section KeyEffects.
Context {S : Type} `{Navigator S} `{!NavigatorLaws S totalSlides}.

(** C9: The arrow keys and the space bar prevent the default scrolling
    and move one slide: right arrow and space as [nextSlide], left arrow
    as [prevSlide] (both clamped at the bounds). *)
Theorem arrow_keys_step s :
  Spec.in_deck totalSlides (nav_index s) ->
  key_prevented (handleKeyPress "ArrowRight") = true /\
  nav_index (perform (key_calls (handleKeyPress "ArrowRight")) s)
    = Z.min (nav_index s + 1) totalSlides /\
  key_prevented (handleKeyPress " ") = true /\
  nav_index (perform (key_calls (handleKeyPress " ")) s)
    = Z.min (nav_index s + 1) totalSlides /\
  key_prevented (handleKeyPress "ArrowLeft") = true /\
  nav_index (perform (key_calls (handleKeyPress "ArrowLeft")) s)
    = Z.max (nav_index s - 1) 1.
Proof.
  intros Hs. rewrite !(perform_index totalSlides) by done.
  repeat split.
Qed.

(** C10: [Home] and [End] prevent the default and always land on the
    first and on the last slide, wherever the deck is. *)
Theorem home_end_keys s :
  Spec.in_deck totalSlides (nav_index s) ->
  key_prevented (handleKeyPress "Home") = true /\
  nav_index (perform (key_calls (handleKeyPress "Home")) s) = 1 /\
  key_prevented (handleKeyPress "End") = true /\
  nav_index (perform (key_calls (handleKeyPress "End")) s) = totalSlides.
Proof.
  intros Hs. rewrite !(perform_index totalSlides) by done.
  repeat split.
Qed.
End KeyEffects.

(** C11: Every key the switch does not list has no effect: no controller
    call, no [preventDefault], no fullscreen toggle. *)
Theorem unhandled_key_no_effect {S} `{Navigator S} key (s : S) :
  key ∉ handledKeys ->
  perform (key_calls (handleKeyPress key)) s = s /\
  key_prevented (handleKeyPress key) = false /\
  key_toggle (handleKeyPress key) = false.
Proof. intros Hk. by rewrite handleKeyPress_unhandled. Qed.

(** C12: [Escape] makes no controller call and does not prevent the
    default; it toggles fullscreen, which a lawful host enters when it is
    not in fullscreen and leaves when it is. *)
Theorem escape_toggles_fullscreen {S H} `{Navigator S} `{FullscreenLaws H} (s : S) (h : H) :
  perform (key_calls (handleKeyPress "Escape")) s = s /\
  key_prevented (handleKeyPress "Escape") = false /\
  key_toggle (handleKeyPress "Escape") = true /\
  fullscreenElement (toggleFullscreen h) = negb (fullscreenElement h).
Proof.
  do 3 (split; [reflexivity|]). unfold toggleFullscreen.
  destruct (fullscreenElement h) eqn:E; simpl; auto using request_enters, exit_leaves.
Qed.

(** ** Witnesses, at the controller of [Navigation] *)

Lemma arrow_keys_step_witness :
  Spec.in_deck totalSlides (nav_index (initDeck 8)) /\
  nav_index (perform (key_calls (handleKeyPress "ArrowRight")) (initDeck 8)) = 2.
Proof.
  assert (H : Spec.in_deck totalSlides (nav_index (initDeck 8)))
    by (vm_compute; split; discriminate).
  split; [exact H|].
  destruct (arrow_keys_step (initDeck 8) H) as (_ & -> & _). reflexivity.
Defined.

Lemma home_end_keys_witness :
  Spec.in_deck totalSlides (nav_index (initDeck 8)) /\
  nav_index (perform (key_calls (handleKeyPress "End")) (initDeck 8)) = 8.
Proof.
  assert (H : Spec.in_deck totalSlides (nav_index (initDeck 8)))
    by (vm_compute; split; discriminate).
  split; [exact H|].
  destruct (home_end_keys (initDeck 8) H) as (_ & _ & _ & ->). reflexivity.
Defined.

Lemma unhandled_key_no_effect_witness :
  ("Tab"%string ∉ handledKeys) /\
  perform (key_calls (handleKeyPress "Tab")) (initDeck 8) = initDeck 8.
Proof.
  assert (H : "Tab"%string ∉ handledKeys) by (unfold handledKeys; set_solver).
  split; [exact H|]. apply (unhandled_key_no_effect "Tab" (initDeck 8) H).
Defined.

Lemma escape_toggles_fullscreen_witness :
  FullscreenLaws bool /\ fullscreenElement (toggleFullscreen false) = true.
Proof.
  split; [exact _|].
  destruct (escape_toggles_fullscreen (initDeck 8) false) as (_ & _ & _ & ->).
  reflexivity.
Defined.

End Keys.
