(* ===== verification/Gestures.v ===== *)
(** * The gesture adapters (src/script.js, lines 20-35 and 130-154)

    Touch: [init] creates the closure variables [touchStartX] and
    [touchEndX] (both 0) and two listeners; [touchstart] records the
    [screenX] of the first changed touch, [touchend] records its end
    position and runs [handleSwipe], whose two [if]s may each call the
    controller.  Mouse: the load-time variables [mouseStartX] and
    [isMouseDown]; [mousedown] arms the drag only when the target is inside
    a [.slide]; [mouseup] navigates when armed and the horizontal distance
    exceeds 50, and always disarms.  Each handler returns its new state and
    the controller calls it makes, in order. *)

From S2P Require Import Prelude NavInterface Render Navigation.
Import Controller.

Module Touch.

Record TouchState := mkTouch { touchStartX : Z; touchEndX : Z }.

(** [let touchStartX = 0; let touchEndX = 0;] (lines 20-21). *)
Definition initTouch : TouchState := mkTouch 0 0.

(** [handleSwipe] (lines 32-35): two independent [if]s, in this order. *)
Definition handleSwipe (t : TouchState) : list NavCall :=
  (if touchEndX t <? touchStartX t - 50 then [Next] else []) ++
  (if touchEndX t >? touchStartX t + 50 then [Prev] else []).

(** The [touchstart] listener (lines 23-25). *)
Definition onTouchStart (screenX : Z) (t : TouchState) : TouchState :=
  mkTouch screenX (touchEndX t).

(** The [touchend] listener (lines 27-30). *)
Definition onTouchEnd (screenX : Z) (t : TouchState) : TouchState * list NavCall :=
  let t' := mkTouch (touchStartX t) screenX in (t', handleSwipe t').

End Touch.

Module Mouse.

Record MouseState := mkMouse { mouseStartX : Z; isMouseDown : bool }.

(** [let mouseStartX = 0; let isMouseDown = false;] (lines 130-131). *)
Definition initMouse : MouseState := mkMouse 0 false.

(** The [mousedown] listener (lines 133-138); [inSlide] is the truth of
    [e.target.closest('.slide')]. *)
Definition onMouseDown (inSlide : bool) (clientX : Z) (m : MouseState) : MouseState :=
  if inSlide then mkMouse clientX true else m.

(** The [mouseup] listener (lines 140-154). *)
Definition onMouseUp (clientX : Z) (m : MouseState) : MouseState * list NavCall :=
  let calls :=
    if isMouseDown m then
      let diff := clientX - mouseStartX m in
      if Z.abs diff >? 50 then (if diff >? 0 then [Prev] else [Next]) else []
    else [] in
  (mkMouse (mouseStartX m) false, calls).

End Mouse.

Import Touch Mouse.

(** An armed [mouseup] makes the calls of a swipe with the same positions. *)
Lemma mouseup_armed_calls startX endX :
  snd (onMouseUp endX (mkMouse startX true)) = handleSwipe (mkTouch startX endX).
Proof. unfold onMouseUp, handleSwipe; simpl. rewrite Z.gtb_ltb. zsolve; lia. Qed.

(** ** Touch *)

(** C13: The two [if]s of [handleSwipe] never both fire: a swipe makes at
    most one call, [nextSlide] when the finger moved left by more than 50
    pixels, [prevSlide] when it moved right by more than 50, none otherwise. *)
Theorem handleSwipe_one_call t :
  handleSwipe t =
    if touchEndX t <? touchStartX t - 50 then [Next]
    else if touchEndX t >? touchStartX t + 50 then [Prev]
    else [].
Proof. unfold handleSwipe. zsolve. Qed.

(** C14: A swipe depends only on its own [touchstart] and [touchend]:
    whatever the closure variables held before, a touch put down at [x0]
    and lifted at [x1] calls [nextSlide] when [x1 < x0 - 50], [prevSlide]
    when [x1 > x0 + 50], and nothing otherwise. *)
Theorem swipe_from_listeners t x0 x1 :
  snd (onTouchEnd x1 (onTouchStart x0 t)) =
    if x1 <? x0 - 50 then [Next] else if x1 >? x0 + 50 then [Prev] else [].
Proof. unfold onTouchEnd, onTouchStart, handleSwipe; simpl. zsolve. Qed.

(** ** Mouse *)

(** C15: A drag and a swipe with the same start and end positions make the
    same call: both map a move to the left by more than 50 to [nextSlide]
    and a move to the right to [prevSlide] (the two adapters have the same
    polarity). *)
Theorem drag_swipe_same_polarity startX endX :
  snd (onMouseUp endX (mkMouse startX true)) = handleSwipe (mkTouch startX endX).
Proof. exact (mouseup_armed_calls startX endX). Qed.

(** C16: [mouseup] always disarms the drag, and an unarmed [mouseup] makes
    no call: one armed [mousedown] yields at most one navigation. *)
Theorem mouseup_disarms x m :
  isMouseDown (fst (onMouseUp x m)) = false /\
  snd (onMouseUp x (fst (onMouseUp x m))) = [].
Proof. split; reflexivity. Qed.

(** C17: A [mousedown] outside the slides does not disarm a drag left armed
    (the button was released outside the window, so no [mouseup] came): for
    every armed state, a press at [x0] outside the slides is ignored and the
    next [mouseup] at [x1] navigates as a drag from the old start position. *)
Theorem stale_drag_navigates m x0 x1 :
  isMouseDown m = true ->
  snd (onMouseUp x1 (onMouseDown false x0 m)) = handleSwipe (mkTouch (mouseStartX m) x1).
Proof. destruct m as [s b]; simpl; intros ->. apply mouseup_armed_calls. Qed.

Lemma stale_drag_navigates_witness :
  isMouseDown (mkMouse 100 true) = true /\
  snd (onMouseUp 510 (onMouseDown false 500 (mkMouse 100 true))) = [Prev].
Proof. split; [reflexivity|]. exact (stale_drag_navigates (mkMouse 100 true) 500 510 eq_refl). Defined.


