(* ===== verification/Tabs.v ===== *)
(** * The demo tabs (src/script.js, lines 119-127)

    [initDemoInteraction] gives every [.tab] a click listener that removes
    the [active] class from all tabs and then adds it to the clicked one.
    The state is the list of the tabs' [active] flags, in document order;
    the clicked tab is an index of that list (a click always hits an
    existing tab). *)

From S2P Require Import Prelude.

Module DemoTabs.

(** The click listener of tab [i] (lines 122-125): [tabs.forEach(t =>
    t.classList.remove('active'))], then [this.classList.add('active')]. *)
Definition clickTab (i : nat) (tabs : list bool) : list bool :=
  <[i := true]> (map (fun _ => false) tabs).

Lemma length_clickTab i tabs : length (clickTab i tabs) = length tabs.
Proof. unfold clickTab. by rewrite length_insert, ?length_map. Qed.

Lemma count_true_all_false {A} (l : list A) : count_true (map (fun _ => false) l) = 0%nat.
Proof. induction l; simpl; auto. Qed.

Lemma count_true_insert_true (l : list bool) i :
  (i < length l)%nat -> l !! i = Some false ->
  count_true (<[i := true]> l) = S (count_true l).
Proof.
  revert i. induction l as [|b l IH]; intros [|i] Hi Hl; simpl in *; try lia.
  - injection Hl as ->. done.
  - rewrite IH by (done || lia). lia.
Qed.

Lemma count_clickTab i tabs :
  (i < length tabs)%nat -> count_true (clickTab i tabs) = 1%nat.
Proof.
  intros Hi. unfold clickTab.
  rewrite count_true_insert_true, count_true_all_false; [done | by rewrite length_map |].
  rewrite list_lookup_fmap. destruct (lookup_lt_is_Some_2 tabs i Hi) as [b ->]. done.
Qed.

#[export] Hint Rewrite length_clickTab : deck_rw.

(** C23: After a click on tab [i], tab [i] is the only active tab. *)
Theorem clickTab_one_active i tabs :
  (i < length tabs)%nat ->
  clickTab i tabs !! i = Some true /\
  count_true (clickTab i tabs) = 1%nat /\
  length (clickTab i tabs) = length tabs.
Proof.
  intros Hi. unfold clickTab. split; [|split].
  - apply list_lookup_insert_eq. by rewrite length_map.
  - by apply count_clickTab.
  - apply length_clickTab.
Qed.

Lemma clickTab_one_active_witness :
  (1 < length [true; false; false])%nat /\
  count_true (clickTab 1 [true; false; false]) = 1%nat.
Proof.
  assert (H : (1 < length [true; false; false])%nat) by (simpl; lia).
  split; [exact H|]. exact (proj1 (proj2 (clickTab_one_active 1 _ H))).
Defined.

End DemoTabs.
