(* ===== verification/JsNumber.v ===== *)
(** * The controller over JavaScript numbers (src/script.js, lines 39-80)

    [goToSlide] is exported as [window.goToSlide] (line 217) and checks only
    [slideNumber >= 1 && slideNumber <= totalSlides]: it accepts any number
    in that range, not only the integers.  This file runs the same code over
    JavaScript numbers: [JsNum] is a finite number (a rational, exact for the
    small values involved) or [NaN], with JavaScript's comparisons (false
    whenever [NaN] is involved) and strict equality.  [jNextSlide],
    [jPrevSlide], [jGoToSlide] and [jUpdateSlideDisplay] are the code of
    [Navigation] and [Render] over [JsNum].  The theorems show that on
    integers this model is the integer model of [Navigation] and so
    refines [Spec] (the integer model loses nothing for integer arguments),
    and what happens with fractional arguments and [NaN]. *)

From S2P Require Import Prelude NavInterface Render Navigation.
From Stdlib Require Import QArith Lqa.
Import Controller.

Local Open Scope Z_scope.

Module JsNumbers.

Inductive JsNum := Num (q : Q) | NaN.

(** JavaScript's [<], [<=], [===] and [+ 1], [- 1] on numbers. *)
Definition jsLt (a b : JsNum) : bool :=
  match a, b with Num x, Num y => negb (Qle_bool y x) | _, _ => false end.
Definition jsLe (a b : JsNum) : bool :=
  match a, b with Num x, Num y => Qle_bool x y | _, _ => false end.
Definition jsStrictEq (a b : JsNum) : bool :=
  match a, b with Num x, Num y => Qeq_bool x y | _, _ => false end.
Definition jsAdd1 (a : JsNum) : JsNum :=
  match a with Num x => Num (x + 1)%Q | NaN => NaN end.
Definition jsSub1 (a : JsNum) : JsNum :=
  match a with Num x => Num (x - 1)%Q | NaN => NaN end.
Definition jsOfZ (z : Z) : JsNum := Num (inject_Z z).

Record JView := mkJView {
  jSlideActive : list bool;
  jIndicatorActive : list bool;
  jCurrentSlideText : JsNum;
  jTotalSlidesText : string;
  jPrevDisabled : bool;
  jNextDisabled : bool
}.

Record JDeck := mkJDeck { jCurrentSlide : JsNum; jView : JView }.

(** [updateSlideDisplay] (lines 39-56). *)
Definition jActiveFlags (currentSlide : JsNum) (els : list bool) : list bool :=
  imap (fun index _ => jsStrictEq (jsOfZ (Z.of_nat index + 1)) currentSlide) els.

Definition jUpdateSlideDisplay (currentSlide : JsNum) (v : JView) : JView :=
  {| jSlideActive := jActiveFlags currentSlide (jSlideActive v);
     jIndicatorActive := jActiveFlags currentSlide (jIndicatorActive v);
     jCurrentSlideText := currentSlide;
     jTotalSlidesText := jTotalSlidesText v;
     jPrevDisabled := jsStrictEq currentSlide (jsOfZ 1);
     jNextDisabled := jsStrictEq currentSlide (jsOfZ totalSlides) |}.

(** [nextSlide] (lines 59-64). *)
Definition jNextSlide (d : JDeck) : JDeck :=
  if jsLt (jCurrentSlide d) (jsOfZ totalSlides) then
    let c := jsAdd1 (jCurrentSlide d) in mkJDeck c (jUpdateSlideDisplay c (jView d))
  else d.

(** [prevSlide] (lines 67-72): [currentSlide > 1]. *)
Definition jPrevSlide (d : JDeck) : JDeck :=
  if jsLt (jsOfZ 1) (jCurrentSlide d) then
    let c := jsSub1 (jCurrentSlide d) in mkJDeck c (jUpdateSlideDisplay c (jView d))
  else d.

(** [goToSlide] (lines 75-80): [slideNumber >= 1 && slideNumber <= totalSlides]. *)
Definition jGoToSlide (slideNumber : JsNum) (d : JDeck) : JDeck :=
  if jsLe (jsOfZ 1) slideNumber && jsLe slideNumber (jsOfZ totalSlides) then
    mkJDeck slideNumber (jUpdateSlideDisplay slideNumber (jView d))
  else d.

(** Calls of the global functions with number arguments, in order. *)
Inductive JCall := JNext | JPrev | JGoTo (n : JsNum).

Definition jCall (c : JCall) (d : JDeck) : JDeck :=
  match c with JNext => jNextSlide d | JPrev => jPrevSlide d | JGoTo n => jGoToSlide n d end.

Fixpoint jPerform (cs : list JCall) (d : JDeck) : JDeck :=
  match cs with [] => d | c :: cs' => jPerform cs' (jCall c d) end.

(** A call of the integer model as a call with a number argument. *)
Definition jsCall (c : NavCall) : JCall :=
  match c with Next => JNext | Prev => JPrev | GoTo n => JGoTo (jsOfZ n) end.

(** The integer model inside the number model. *)
Definition embedView (v : View) : JView :=
  mkJView (slideActive v) (indicatorActive v)
    (match decimalToZ (currentSlideText v) with Some z => jsOfZ z | None => NaN end)
    (totalSlidesText v) (prevDisabled v) (nextDisabled v).

Definition embedDeck (d : Deck) : JDeck :=
  mkJDeck (jsOfZ (currentSlide d)) (embedView (view d)).

(** ** The operations on integers are the integer operations *)

Lemma jsStrictEq_ofZ a b : jsStrictEq (jsOfZ a) (jsOfZ b) = (a =? b).
Proof.
  unfold jsStrictEq, jsOfZ. destruct (Z.eqb_spec a b) as [-> | Hne].
  - apply Qeq_bool_iff. reflexivity.
  - destruct (Qeq_bool (inject_Z a) (inject_Z b)) eqn:E; [|done].
    assert (Heq : inject_Z a == inject_Z b) by (apply Qeq_bool_iff; exact E).
    apply (proj1 (inject_Z_injective a b)) in Heq. contradiction.
Qed.

Lemma jsLe_ofZ a b : jsLe (jsOfZ a) (jsOfZ b) = (a <=? b).
Proof.
  unfold jsLe, jsOfZ. destruct (Z.leb_spec a b) as [H | H].
  - apply Qle_bool_iff. by rewrite <- Zle_Qle.
  - destruct (Qle_bool (inject_Z a) (inject_Z b)) eqn:E; [|done].
    apply Qle_bool_iff in E. rewrite <- Zle_Qle in E. lia.
Qed.

Lemma jsLt_ofZ a b : jsLt (jsOfZ a) (jsOfZ b) = (a <? b).
Proof.
  unfold jsLt, jsOfZ. rewrite Z.ltb_antisym. f_equal. exact (jsLe_ofZ b a).
Qed.

Lemma jsAdd1_ofZ a : jsAdd1 (jsOfZ a) = jsOfZ (a + 1).
Proof. unfold jsAdd1, jsOfZ, inject_Z, Qplus. simpl. f_equal. f_equal. ring. Qed.

Lemma jsSub1_ofZ a : jsSub1 (jsOfZ a) = jsOfZ (a - 1).
Proof. unfold jsSub1, jsOfZ, inject_Z, Qminus, Qplus. simpl. f_equal. f_equal. ring. Qed.

Lemma jActiveFlags_ofZ c els : jActiveFlags (jsOfZ c) els = activeFlags c els.
Proof. apply imap_ext. intros i x _. apply jsStrictEq_ofZ. Qed.

Lemma jUpdate_embed c v :
  jUpdateSlideDisplay (jsOfZ c) (embedView v) = embedView (updateSlideDisplay c v).
Proof.
  unfold jUpdateSlideDisplay, embedView, updateSlideDisplay.
  cbn [currentSlideText jCurrentSlideText].
  by rewrite !jActiveFlags_ofZ, !jsStrictEq_ofZ, decimalToZ_jsNumberToString.
Qed.

#[export] Hint Rewrite jsStrictEq_ofZ jsLe_ofZ jsLt_ofZ jsAdd1_ofZ jsSub1_ofZ
  jActiveFlags_ofZ jUpdate_embed : deck_rw.

Lemma jsLe_Num_true x y : (x <= y)%Q -> jsLe (Num x) (Num y) = true.
Proof. intros H. by apply Qle_bool_iff. Qed.

Lemma jsLe_Num_false x y : ~ (x <= y)%Q -> jsLe (Num x) (Num y) = false.
Proof.
  intros H. unfold jsLe. destruct (Qle_bool x y) eqn:E; [|done].
  apply Qle_bool_iff in E. contradiction.
Qed.

Lemma Qle_bool_false x y : Qle_bool x y = false -> (y < x)%Q.
Proof.
  intros E. apply Qnot_le_lt. intros H. rewrite (proj2 (Qle_bool_iff x y) H) in E. done.
Qed.

(** Case analysis on the comparisons of rationals in the goal. *)
Ltac qcase :=
  repeat match goal with
  | |- context [Qle_bool ?x ?y] =>
      let E := fresh "E" in
      destruct (Qle_bool x y) eqn:E;
      [pose proof (proj1 (Qle_bool_iff x y) E) | pose proof (Qle_bool_false x y E)];
      clear E
  end.

(** On integer decks, each call of the number model is the call of the
    integer model. *)
Lemma jCall_embed c d : jCall (jsCall c) (embedDeck d) = embedDeck (nav_call c d).
Proof.
  destruct c; simpl;
    unfold jNextSlide, jPrevSlide, jGoToSlide, nextSlide, prevSlide, goToSlide, embedDeck;
    cbn [jCurrentSlide jView];
    rewrite ?jsLt_ofZ, ?jsLe_ofZ, ?Z.gtb_ltb, ?Z.geb_leb, ?jsAdd1_ofZ, ?jsSub1_ofZ, ?jUpdate_embed;
    by repeat case_match.
Qed.

Lemma jPerform_embed cs d : jPerform (map jsCall cs) (embedDeck d) = embedDeck (perform cs d).
Proof.
  revert d. induction cs as [|c cs IH]; intros d; simpl; [done|]. by rewrite jCall_embed, IH.
Qed.

(** A number that is no integer equals no position. *)
Lemma jsStrictEq_fractional z q :
  (forall k : Z, ~ (q == inject_Z k)%Q) -> jsStrictEq (jsOfZ z) (Num q) = false.
Proof.
  intros Hq. unfold jsStrictEq, jsOfZ. destruct (Qeq_bool (inject_Z z) q) eqn:E; [|done].
  exfalso. apply (Hq z). symmetry. by apply Qeq_bool_iff.
Qed.

Lemma jsStrictEq_fractional_r z q :
  (forall k : Z, ~ (q == inject_Z k)%Q) -> jsStrictEq (Num q) (jsOfZ z) = false.
Proof.
  intros Hq. unfold jsStrictEq, jsOfZ. destruct (Qeq_bool q (inject_Z z)) eqn:E; [|done].
  exfalso. apply (Hq z). by apply Qeq_bool_iff.
Qed.

(** ** Properties *)

(** C26: With integer arguments the controller over JavaScript numbers
    refines the clamping specification: from an integer deck whose index is
    a slide, any sequence of [nextSlide], [prevSlide] and [goToSlide(n)]
    calls ends where [Spec] puts it, in the deck the integer model
    computes. *)
Theorem js_controller_refines_spec cs d :
  Spec.in_deck totalSlides (currentSlide d) ->
  jCurrentSlide (jPerform (map jsCall cs) (embedDeck d)) =
    jsOfZ (Spec.run totalSlides cs (currentSlide d)) /\
  jPerform (map jsCall cs) (embedDeck d) = embedDeck (perform cs d).
Proof.
  intros Hin. rewrite jPerform_embed. split; [|done].
  unfold embedDeck. cbn [jCurrentSlide]. f_equal. exact (perform_index totalSlides cs d Hin).
Qed.

Lemma js_controller_refines_spec_witness :
  Spec.in_deck totalSlides (currentSlide (initDeck 8)) /\
  jCurrentSlide (jPerform (map jsCall [GoTo 8; Next; Prev; Prev]) (embedDeck (initDeck 8))) = jsOfZ 6.
Proof.
  assert (H : Spec.in_deck totalSlides (currentSlide (initDeck 8)))
    by (unfold Spec.in_deck, totalSlides; simpl; lia).
  split; [exact H|]. exact (proj1 (js_controller_refines_spec [GoTo 8; Next; Prev; Prev] _ H)).
Defined.

(** C27: [goToSlide] accepts a fractional target in [1..8]: the index
    becomes that number, no slide and no indicator is active, and neither
    button is disabled. *)
Theorem fractional_goto_accepted q d :
  (1 <= q <= 8)%Q -> (forall k : Z, ~ (q == inject_Z k)%Q) ->
  let d' := jGoToSlide (Num q) d in
  jCurrentSlide d' = Num q /\
  count_true (jSlideActive (jView d')) = 0%nat /\
  count_true (jIndicatorActive (jView d')) = 0%nat /\
  jPrevDisabled (jView d') = false /\ jNextDisabled (jView d') = false.
Proof.
  intros [Hlo Hhi] Hq. unfold jGoToSlide.
  rewrite (jsLe_Num_true (inject_Z 1) q Hlo : jsLe (jsOfZ 1) (Num q) = true).
  rewrite (jsLe_Num_true q (inject_Z totalSlides) Hhi : jsLe (Num q) (jsOfZ totalSlides) = true).
  cbn [andb jCurrentSlide jView jUpdateSlideDisplay jSlideActive jIndicatorActive
       jPrevDisabled jNextDisabled].
  unfold jActiveFlags.
  split; [reflexivity|].
  split; [apply count_true_imap_false; intros; by apply jsStrictEq_fractional|].
  split; [apply count_true_imap_false; intros; by apply jsStrictEq_fractional|].
  split; by apply jsStrictEq_fractional_r.
Qed.

Lemma fractional_goto_accepted_witness :
  ((1 <= 3 # 2 <= 8)%Q /\ (forall k : Z, ~ (3 # 2 == inject_Z k)%Q)) /\
  count_true (jSlideActive (jView (jGoToSlide (Num (3 # 2)) (embedDeck (initDeck 8))))) = 0%nat.
Proof.
  assert (Hr : (1 <= 3 # 2 <= 8)%Q) by (split; unfold Qle; simpl; lia).
  assert (Hq : forall k : Z, ~ (3 # 2 == inject_Z k)%Q) by (intros k; unfold Qeq; simpl; lia).
  split; [split; [exact Hr | exact Hq]|].
  exact (proj1 (proj2 (fractional_goto_accepted (3 # 2) (embedDeck (initDeck 8)) Hr Hq))).
Defined.



(** C29: [goToSlide] rejects [NaN] (as [goToSlide(undefined)] gives) and
    every number outside [1..8]: the deck is unchanged. *)
Theorem goto_rejects_nan_and_out_of_range q d :
  ~ (1 <= q <= 8)%Q ->
  jGoToSlide (Num q) d = d /\ jGoToSlide NaN d = d.
Proof.
  intros Hq. split; [|reflexivity]. unfold jGoToSlide.
  change (jsLe (jsOfZ 1) (Num q)) with (Qle_bool (inject_Z 1) q).
  change (jsLe (Num q) (jsOfZ totalSlides)) with (Qle_bool q (inject_Z totalSlides)).
  destruct (Qle_bool (inject_Z 1) q) eqn:E1; [|reflexivity].
  destruct (Qle_bool q (inject_Z totalSlides)) eqn:E2; [|reflexivity].
  exfalso. apply Hq. by split; apply Qle_bool_iff.
Qed.

Lemma goto_rejects_nan_and_out_of_range_witness :
  ~ (1 <= 17 # 2 <= 8)%Q /\
  jGoToSlide (Num (17 # 2)) (embedDeck (initDeck 8)) = embedDeck (initDeck 8).
Proof.
  assert (H : ~ (1 <= 17 # 2 <= 8)%Q) by (intros [_ H]; unfold Qle in H; simpl in H; lia).
  split; [exact H|]. exact (proj1 (goto_rejects_nan_and_out_of_range _ _ H)).
Defined.

End JsNumbers.
