(* ===== verification/JsValue.v ===== *)
(** * The controller over JavaScript values (src/script.js, lines 39-80, 217)

    [window.goToSlide] can be called with any JavaScript value, not only a
    number.  The code never checks the type.
    - [slideNumber >= 1] and [slideNumber <= totalSlides] convert the value
      with [ToNumber].
    - [currentSlide = slideNumber] stores the value as it is.
    - The renderer's [index + 1 === currentSlide] and [currentSlide === 1]
      are strict, so they are false for every non-number.
    - [currentSlide++] and [currentSlide--] convert to a number first.

    [JsVal] covers numbers, strings, booleans, [null] and [undefined].
    [ToNumber] on booleans, [null] and [undefined] is fixed by the language.
    On strings it is a variable of the Section ([stringToNumber]).  The one
    hypothesis, used where a string argument matters, is that it reads the
    decimal integer strings [String(n)] as [n].  The operations here are
    those of [JsNumber], lifted to values. *)

From S2P Require Import Prelude NavInterface Render Navigation JsNumber.
From Stdlib Require Import QArith.
Import Controller JsNumbers.

Local Open Scope Z_scope.

Module JsValues.

Inductive JsVal :=
| VNum (n : JsNum)
| VStr (s : string)
| VBool (b : bool)
| VNull
| VUndefined.

Definition isNumber (v : JsVal) : bool :=
  match v with VNum _ => true | _ => false end.

Record VView := mkVView {
  vSlideActive : list bool;
  vIndicatorActive : list bool;
  vCurrentSlideText : JsVal;     (* the value assigned to textContent *)
  vTotalSlidesText : string;
  vPrevDisabled : bool;
  vNextDisabled : bool
}.

Record VDeck := mkVDeck { vCurrentSlide : JsVal; vView : VView }.

(** A call of the global functions with a value. *)
Inductive VCall := VNext | VPrev | VGoTo (x : JsVal).

Section WithToNumber.
Variable stringToNumber : string -> JsNum.

(** [ToNumber]. *)
Definition toNumber (v : JsVal) : JsNum :=
  match v with
  | VNum n => n
  | VStr s => stringToNumber s
  | VBool b => if b then jsOfZ 1 else jsOfZ 0
  | VNull => jsOfZ 0
  | VUndefined => NaN
  end.

(** [x === n] for a number [n]: false unless [x] is a number. *)
Definition valStrictEq (x : JsVal) (n : JsNum) : bool :=
  match x with VNum m => jsStrictEq n m | _ => false end.

(** [updateSlideDisplay] (lines 39-56). *)
Definition vActiveFlags (currentSlide : JsVal) (els : list bool) : list bool :=
  imap (fun index _ => valStrictEq currentSlide (jsOfZ (Z.of_nat index + 1))) els.

Definition vUpdateSlideDisplay (currentSlide : JsVal) (v : VView) : VView :=
  {| vSlideActive := vActiveFlags currentSlide (vSlideActive v);
     vIndicatorActive := vActiveFlags currentSlide (vIndicatorActive v);
     vCurrentSlideText := currentSlide;
     vTotalSlidesText := vTotalSlidesText v;
     vPrevDisabled := valStrictEq currentSlide (jsOfZ 1);
     vNextDisabled := valStrictEq currentSlide (jsOfZ totalSlides) |}.

(** [nextSlide] (lines 59-64): [currentSlide++] stores a number. *)
Definition vNextSlide (d : VDeck) : VDeck :=
  if jsLt (toNumber (vCurrentSlide d)) (jsOfZ totalSlides) then
    let c := VNum (jsAdd1 (toNumber (vCurrentSlide d))) in
    mkVDeck c (vUpdateSlideDisplay c (vView d))
  else d.

(** [prevSlide] (lines 67-72). *)
Definition vPrevSlide (d : VDeck) : VDeck :=
  if jsLt (jsOfZ 1) (toNumber (vCurrentSlide d)) then
    let c := VNum (jsSub1 (toNumber (vCurrentSlide d))) in
    mkVDeck c (vUpdateSlideDisplay c (vView d))
  else d.

(** [goToSlide] (lines 75-80): the value is stored unconverted. *)
Definition vGoToSlide (slideNumber : JsVal) (d : VDeck) : VDeck :=
  if jsLe (jsOfZ 1) (toNumber slideNumber) && jsLe (toNumber slideNumber) (jsOfZ totalSlides)
  then mkVDeck slideNumber (vUpdateSlideDisplay slideNumber (vView d))
  else d.

Definition vCall (c : VCall) (d : VDeck) : VDeck :=
  match c with
  | VNext => vNextSlide d
  | VPrev => vPrevSlide d
  | VGoTo x => vGoToSlide x d
  end.

Fixpoint vPerform (cs : list VCall) (d : VDeck) : VDeck :=
  match cs with
  | [] => d
  | c :: cs' => vPerform cs' (vCall c d)
  end.

End WithToNumber.

(** The number model inside the value model. *)
Definition embedJView (v : JView) : VView :=
  mkVView (jSlideActive v) (jIndicatorActive v) (VNum (jCurrentSlideText v))
    (jTotalSlidesText v) (jPrevDisabled v) (jNextDisabled v).

Definition embedJDeck (d : JDeck) : VDeck :=
  mkVDeck (VNum (jCurrentSlide d)) (embedJView (jView d)).

(** A [ToNumber] on strings that reads decimal integers and gives [NaN]
    otherwise: it meets the hypothesis of the theorems below. *)
Definition decimalToNumber (s : string) : JsNum :=
  match decimalToZ s with Some z => jsOfZ z | None => NaN end.

Lemma vActiveFlags_non_number x els :
  isNumber x = false -> count_true (vActiveFlags x els) = 0%nat.
Proof.
  intros Hx. apply count_true_imap_false. intros i _. by destruct x.
Qed.

(** What a page whose index is not a number looks like. *)
Definition index_inv (sToN : string -> JsNum) (d : VDeck) : Prop :=
  isNumber (vCurrentSlide d) = true \/
  (jsLe (jsOfZ 1) (toNumber sToN (vCurrentSlide d)) &&
   jsLe (toNumber sToN (vCurrentSlide d)) (jsOfZ totalSlides) = true /\
   count_true (vSlideActive (vView d)) = 0%nat /\
   count_true (vIndicatorActive (vView d)) = 0%nat /\
   vPrevDisabled (vView d) = false /\ vNextDisabled (vView d) = false).

Lemma vCall_inv sToN c d : index_inv sToN d -> index_inv sToN (vCall sToN c d).
Proof.
  intros H. destruct c as [| |x]; simpl; unfold vNextSlide, vPrevSlide, vGoToSlide.
  1,2: case_match; [by left | exact H].
  destruct (_ && _) eqn:Eg; [|exact H].
  match goal with |- index_inv _ (mkVDeck ?y _) => destruct (isNumber y) eqn:Ey; [by left|] end.
  right. cbn [vCurrentSlide vView vSlideActive vIndicatorActive vPrevDisabled vNextDisabled
    vUpdateSlideDisplay].
  split; [done|]. split; [by apply vActiveFlags_non_number|].
  split; [by apply vActiveFlags_non_number|]. by destruct x.
Qed.

(** ** Properties *)

(** C30: Invariant over every sequence of calls with any values: the
    index stops being a number only through an accepted [goToSlide(x)],
    i.e. [ToNumber(x)] in [1..8], and while it is not a number the page
    shows no slide and no indicator and disables neither button. *)
Theorem non_number_index_inv sToN cs d :
  isNumber (vCurrentSlide d) = true -> index_inv sToN (vPerform sToN cs d).
Proof.
  intros Hd. assert (H : index_inv sToN d) by (by left). clear Hd.
  revert d H. induction cs as [|c cs IH]; intros d H; simpl; [done|]. by apply IH, vCall_inv.
Qed.

Lemma non_number_index_inv_witness :
  isNumber (vCurrentSlide (embedJDeck (embedDeck (initDeck 8)))) = true /\
  index_inv decimalToNumber
    (vPerform decimalToNumber [VGoTo (VStr "3"); VGoTo VNull; VNext; VGoTo (VBool true)]
       (embedJDeck (embedDeck (initDeck 8)))).
Proof.
  assert (H : isNumber (vCurrentSlide (embedJDeck (embedDeck (initDeck 8)))) = true)
    by reflexivity.
  split; [exact H|]. exact (non_number_index_inv decimalToNumber _ _ H).
Defined.

(** C31: [goToSlide] with the string of a slide number (as [goToSlide("3")])
    is accepted and stores the string: no slide and no indicator is active
    and neither button is disabled, until the next [nextSlide] or
    [prevSlide] turns the index back into a number. *)
Theorem string_goto_accepted sToN z d :
  (forall k, sToN (jsNumberToString k) = jsOfZ k) ->
  1 <= z <= totalSlides ->
  let d1 := vGoToSlide sToN (VStr (jsNumberToString z)) d in
  vCurrentSlide d1 = VStr (jsNumberToString z) /\
  count_true (vSlideActive (vView d1)) = 0%nat /\
  count_true (vIndicatorActive (vView d1)) = 0%nat /\
  vPrevDisabled (vView d1) = false /\ vNextDisabled (vView d1) = false /\
  (z < totalSlides -> vCurrentSlide (vNextSlide sToN d1) = VNum (jsOfZ (z + 1))) /\
  (1 < z -> vCurrentSlide (vPrevSlide sToN d1) = VNum (jsOfZ (z - 1))).
Proof.
  intros Hdec Hz d1.
  assert (Hd1 : d1 = mkVDeck (VStr (jsNumberToString z))
                   (vUpdateSlideDisplay (VStr (jsNumberToString z)) (vView d))).
  { subst d1. unfold vGoToSlide. cbn [toNumber]. rewrite Hdec, !jsLe_ofZ. zsolve. }
  rewrite Hd1. unfold vNextSlide, vPrevSlide. cbn [vCurrentSlide vView toNumber].
  rewrite Hdec, jsLt_ofZ, jsLt_ofZ, jsAdd1_ofZ, jsSub1_ofZ.
  split; [done|]. split; [by apply vActiveFlags_non_number|].
  split; [by apply vActiveFlags_non_number|]. split; [done|]. split; [done|].
  split; intros H; zsolve.
Qed.

Lemma string_goto_accepted_witness :
  ((forall k, decimalToNumber (jsNumberToString k) = jsOfZ k) /\ 1 <= 3 <= totalSlides) /\
  vCurrentSlide (vGoToSlide decimalToNumber (VStr "3") (embedJDeck (embedDeck (initDeck 8))))
    = VStr "3".
Proof.
  assert (Hdec : forall k, decimalToNumber (jsNumberToString k) = jsOfZ k).
  { intros k. unfold decimalToNumber. by rewrite decimalToZ_jsNumberToString. }
  assert (Hz : 1 <= 3 <= totalSlides) by (unfold totalSlides; lia).
  split; [split; assumption|].
  exact (proj1 (string_goto_accepted decimalToNumber 3 _ Hdec Hz)).
Defined.

(** C32: The other values: [goToSlide(true)] is accepted ([ToNumber(true)]
    is 1) and leaves no slide active; [false], [null] and [undefined] are
    rejected (they convert to 0, 0 and [NaN]). *)
Theorem non_number_arguments sToN d :
  vCurrentSlide (vGoToSlide sToN (VBool true) d) = VBool true /\
  count_true (vSlideActive (vView (vGoToSlide sToN (VBool true) d))) = 0%nat /\
  vGoToSlide sToN (VBool false) d = d /\
  vGoToSlide sToN VNull d = d /\
  vGoToSlide sToN VUndefined d = d.
Proof.
  unfold vGoToSlide. cbn [toNumber]. rewrite !jsLe_ofZ. simpl.
  split; [done|]. split; [by apply vActiveFlags_non_number | done].
Qed.

End JsValues.
