(* ===== verification/Page.v ===== *)
(** * The page: state, events and listeners (src/script.js, whole file)

    [Page] is the state the script keeps across events: the controller
    ([Deck]), the touch and mouse variables, the host's fullscreen flag, the
    demo tabs, whether [DOMContentLoaded] has run [init] (which registers
    the [keydown], [touchstart], [touchend] and tab listeners), and the
    fade-in ([document.body.style.opacity] and the pending [setTimeout]).
    [handle] runs the listeners an [Event] reaches, as the code registers
    them: mouse, [contextmenu], [visibilitychange] and [resize] at load time
    (lines 133-173, 210-212), the others in [init] (lines 12-36, 119-127,
    196-207); the globals of lines 215-217 are [GlobalCall].  It returns the
    listeners' own state changes and the controller calls they make;
    [dispatch] performs the calls.  [reachable] is the set of pages a
    session reaches from the loaded HTML, the host delivering only events
    that can occur ([deliverable]). *)

From S2P Require Import Prelude NavInterface Render Navigation Keyboard Gestures Tabs.
Import Controller Keys Touch Mouse DemoTabs.

Module Page.

Record Page := mkPage {
  deck : Deck;
  touch : TouchState;
  mouse : MouseState;
  fullscreen : bool;          (* document.fullscreenElement !== null *)
  tabs : list bool;           (* the .tab elements' active flags *)
  initialized : bool;         (* the DOMContentLoaded listener has run *)
  bodyOpacity : string;       (* document.body.style.opacity *)
  fadePending : bool          (* the setTimeout callback of line 204 *)
}.

Inductive JsError := ReferenceError (name : string).

Inductive Event :=
| DOMContentLoaded
| KeyDown (key : string)
| TouchStart (screenX : Z)
| TouchEnd (screenX : Z)
| MouseDown (inSlide : bool) (clientX : Z)
| MouseUp (clientX : Z)
| ContextMenu
| VisibilityChange (hidden : bool)
| Resize
| TabClick (i : nat)
| FadeTimeout
| GlobalCall (c : NavCall).      (* window.nextSlide() / prevSlide() / goToSlide(n) *)

#[export] Instance JsError_eq_dec : EqDecision JsError.
Proof. solve_decision. Defined.
#[export] Instance Event_eq_dec : EqDecision Event.
Proof. solve_decision. Defined.

(** What the listeners of one event do before the controller runs: their own
    state changes, the controller calls in order, [preventDefault], and the
    exception a listener throws. *)
Record Reaction := mkReaction {
  r_page : Page;
  r_calls : list NavCall;
  r_prevented : bool;
  r_error : option JsError
}.

Definition quiet (p : Page) : Reaction := mkReaction p [] false None.

Definition set_deck (d : Deck) (p : Page) : Page :=
  mkPage d (touch p) (mouse p) (fullscreen p) (tabs p) (initialized p)
    (bodyOpacity p) (fadePending p).
Definition set_touch (t : TouchState) (p : Page) : Page :=
  mkPage (deck p) t (mouse p) (fullscreen p) (tabs p) (initialized p)
    (bodyOpacity p) (fadePending p).
Definition set_mouse (m : MouseState) (p : Page) : Page :=
  mkPage (deck p) (touch p) m (fullscreen p) (tabs p) (initialized p)
    (bodyOpacity p) (fadePending p).
Definition set_fullscreen (f : bool) (p : Page) : Page :=
  mkPage (deck p) (touch p) (mouse p) f (tabs p) (initialized p)
    (bodyOpacity p) (fadePending p).
Definition set_tabs (ts : list bool) (p : Page) : Page :=
  mkPage (deck p) (touch p) (mouse p) (fullscreen p) ts (initialized p)
    (bodyOpacity p) (fadePending p).

(** [totalSlidesSpan.textContent = totalSlides] (line 13). *)
Definition setTotalText (v : View) : View :=
  mkView (slideActive v) (indicatorActive v) (currentSlideText v) (jsNumberToString totalSlides)
    (prevDisabled v) (nextDisabled v).

(** The [DOMContentLoaded] listener (lines 196-207): [init()] writes the
    total, renders, registers the keyboard and touch listeners with fresh
    [touchStartX = touchEndX = 0]; [initDemoInteraction()] registers the tab
    listeners; the body is made transparent and the fade-in is scheduled. *)
Definition domContentLoaded (p : Page) : Page :=
  let d := deck p in
  mkPage (mkDeck (currentSlide d) (updateSlideDisplay (currentSlide d) (setTotalText (view d))))
    initTouch (mouse p) (fullscreen p) (tabs p) true "0" true.

(** [handleVisibilityChange] (lines 164-171): [stopAutoPlay] is not defined
    anywhere in the script, so calling it throws a [ReferenceError] before
    anything changes. *)
Definition handleVisibilityChange (hidden : bool) (p : Page) : Reaction :=
  if hidden then mkReaction p [] false (Some (ReferenceError "stopAutoPlay"))
  else quiet p.

Definition handle (p : Page) (e : Event) : Reaction :=
  match e with
  | DOMContentLoaded => quiet (domContentLoaded p)
  | KeyDown key =>
      if initialized p then
        let r := handleKeyPress key in
        mkReaction
          (if key_toggle r then set_fullscreen (toggleFullscreen (fullscreen p)) p else p)
          (key_calls r) (key_prevented r) None
      else quiet p
  | TouchStart x =>
      if initialized p then quiet (set_touch (onTouchStart x (touch p)) p) else quiet p
  | TouchEnd x =>
      if initialized p then
        let '(t, cs) := onTouchEnd x (touch p) in mkReaction (set_touch t p) cs false None
      else quiet p
  | MouseDown inSlide x => quiet (set_mouse (onMouseDown inSlide x (mouse p)) p)
  | MouseUp x =>
      let '(m, cs) := onMouseUp x (mouse p) in mkReaction (set_mouse m p) cs false None
  | ContextMenu => mkReaction p [] true None
  | VisibilityChange hidden => handleVisibilityChange hidden p
  | Resize => quiet p
  | TabClick i =>
      if initialized p then quiet (set_tabs (clickTab i (tabs p)) p) else quiet p
  | FadeTimeout =>
      quiet (mkPage (deck p) (touch p) (mouse p) (fullscreen p) (tabs p) (initialized p)
               "1" false)
  | GlobalCall c => mkReaction p [c] false None
  end.

Record Outcome := mkOutcome {
  out_page : Page;
  out_prevented : bool;
  out_error : option JsError
}.

(** One event: the listeners, then the controller calls they made. *)
Definition dispatch (p : Page) (e : Event) : Outcome :=
  let r := handle p e in
  mkOutcome (set_deck (perform (r_calls r) (deck (r_page r))) (r_page r))
    (r_prevented r) (r_error r).

(** The events the host can deliver: [DOMContentLoaded] once, the timer
    only when scheduled, a tab click only on an existing tab. *)
Definition deliverable (p : Page) (e : Event) : bool :=
  match e with
  | DOMContentLoaded => negb (initialized p)
  | FadeTimeout => fadePending p
  | TabClick i => bool_decide (i < length (tabs p))%nat
  | _ => true
  end.

(** The page once the script's top level has run over the HTML [html]
    (slides, indicators, counter, buttons) with the tabs [tabs0]. *)
Definition loadPage (html : View) (tabs0 : list bool) : Page :=
  mkPage (mkDeck 1 html) initTouch initMouse false tabs0 false "" false.

Inductive reachable (html : View) (tabs0 : list bool) : Page -> Prop :=
| reach_load : reachable html tabs0 (loadPage html tabs0)
| reach_step p e :
    reachable html tabs0 p -> deliverable p e = true ->
    reachable html tabs0 (out_page (dispatch p e)).

(** A session: the deliverable events in order, with the errors thrown. *)
Fixpoint run (p : Page) (es : list Event) : Page * list JsError :=
  match es with
  | [] => (p, [])
  | e :: es' =>
      if deliverable p e then
        let o := dispatch p e in
        let '(p', errs) := run (out_page o) es' in
        (p', match out_error o with Some err => err :: errs | None => errs end)
      else run p es'
  end.

(** ** The page invariant *)

(** The index is a slide of the deck; the view keeps the HTML's slides and
    indicators and shows the total once [init] has written it; the tabs
    keep their number; once initialised, the view shows the index. *)
Definition page_inv (html : View) (tabs0 : list bool) (p : Page) : Prop :=
  Spec.in_deck totalSlides (currentSlide (deck p)) /\
  view_shape (view (deck p)) =
    (length (slideActive html), length (indicatorActive html),
     if initialized p then jsNumberToString totalSlides else totalSlidesText html) /\
  length (tabs p) = length tabs0 /\
  (initialized p = true -> rendered (currentSlide (deck p)) (view (deck p))).

(** The controller state after an event is the listeners' state after some
    sequence of controller calls. *)
Lemma dispatch_deck p e :
  exists cs, deck (out_page (dispatch p e)) = perform cs (deck (r_page (handle p e))).
Proof. eexists. reflexivity. Qed.

(** Every listener but [DOMContentLoaded]'s leaves the controller, the
    initialisation flag and the number of tabs to the controller calls. *)
Lemma handle_frame p e :
  e <> DOMContentLoaded ->
  deck (r_page (handle p e)) = deck p /\
  initialized (r_page (handle p e)) = initialized p /\
  length (tabs (r_page (handle p e))) = length (tabs p).
Proof.
  intros He. destruct e; try done; simpl; repeat case_match; simplify_eq/=;
    rewrite ?length_clickTab; auto.
  unfold handleVisibilityChange. case_match; auto.
Qed.

Lemma domContentLoaded_inv html tabs0 p :
  page_inv html tabs0 p ->
  page_inv html tabs0 (out_page (dispatch p DOMContentLoaded)).
Proof.
  intros (Hin & Hsh & Ht & _). unfold view_shape in Hsh. injection Hsh as Hs Hi _.
  split; [exact Hin|]. split; [|split; [exact Ht|intros _; apply rendered_update]].
  unfold view_shape. cbn -[updateSlideDisplay].
  rewrite (proj1 (updateSlideDisplay_lengths _ _)), (proj2 (updateSlideDisplay_lengths _ _)).
  simpl. by rewrite Hs, Hi.
Qed.

Lemma dispatch_inv html tabs0 p e :
  page_inv html tabs0 p -> page_inv html tabs0 (out_page (dispatch p e)).
Proof.
  destruct (decide (e = DOMContentLoaded)) as [-> | He]; [apply domContentLoaded_inv|].
  intros (Hin & Hsh & Ht & Hr). destruct (handle_frame p e He) as (Hd & Hini & Htabs).
  destruct (dispatch_deck p e) as [cs Hcs].
  unfold page_inv. rewrite Hcs, Hd.
  change (initialized (out_page (dispatch p e))) with (initialized (r_page (handle p e))).
  change (tabs (out_page (dispatch p e))) with (tabs (r_page (handle p e))).
  rewrite Hini, Htabs, perform_shape.
  split; [by apply perform_in_deck|]. split; [done|]. split; [done|].
  intros Hi. apply perform_rendered; auto.
Qed.

Lemma loadPage_inv html tabs0 :
  Spec.in_deck totalSlides 1 -> page_inv html tabs0 (loadPage html tabs0).
Proof. intros H. repeat split; done. Qed.

Lemma reachable_inv html tabs0 p :
  reachable html tabs0 p -> page_inv html tabs0 p.
Proof.
  induction 1 as [|p e _ IH _].
  - apply loadPage_inv. unfold Spec.in_deck, totalSlides. lia.
  - by apply dispatch_inv.
Qed.

#[export] Hint Resolve reachable_inv dispatch_inv : deck.

Lemma set_deck_id p : set_deck (deck p) p = p.
Proof. by destruct p. Qed.

Lemma run_deliverable_step html tabs0 p e :
  reachable html tabs0 p -> deliverable p e = true ->
  reachable html tabs0 (out_page (dispatch p e)).
Proof. apply reach_step. Qed.

(** The index after an event, from any index in range. *)
Lemma dispatch_index p e :
  Spec.in_deck totalSlides (currentSlide (deck p)) ->
  currentSlide (deck (out_page (dispatch p e))) =
    Spec.run totalSlides (r_calls (handle p e)) (currentSlide (deck p)).
Proof.
  intros Hin. destruct (decide (e = DOMContentLoaded)) as [-> | He]; [reflexivity|].
  unfold dispatch; cbn [out_page set_deck deck].
  rewrite (proj1 (handle_frame p e He)).
  exact (perform_index totalSlides _ (deck p) Hin).
Qed.

Lemma run_cons p e es :
  deliverable p e = true -> fst (run p (e :: es)) = fst (run (out_page (dispatch p e)) es).
Proof. intros H. simpl. rewrite H. by destruct (run _ es). Qed.

Lemma keydown_keeps_initialized p key :
  initialized (out_page (dispatch p (KeyDown key))) = initialized p.
Proof. exact (proj1 (proj2 (handle_frame p (KeyDown key) ltac:(done)))). Qed.

Lemma keydown_calls p key :
  initialized p = true -> r_calls (handle p (KeyDown key)) = key_calls (handleKeyPress key).
Proof. intros H. simpl. by rewrite H. Qed.

(** [m] presses of the right arrow from slide [i] reach slide [i + m]. *)
Lemma run_arrows html tabs0 p m :
  reachable html tabs0 p -> initialized p = true ->
  currentSlide (deck p) + Z.of_nat m <= totalSlides ->
  let p' := fst (run p (repeat (KeyDown "ArrowRight") m)) in
  reachable html tabs0 p' /\ initialized p' = true /\
  currentSlide (deck p') = currentSlide (deck p) + Z.of_nat m.
Proof.
  revert p. induction m as [|m IH]; intros p Hr Hini Hm; [simpl; auto with lia|].
  cbv zeta. cbn [repeat]. rewrite run_cons by done.
  destruct (reachable_inv _ _ _ Hr) as (Hin & _).
  assert (Hr' := reach_step _ _ _ (KeyDown "ArrowRight") Hr eq_refl).
  assert (Hi' := dispatch_index p (KeyDown "ArrowRight") Hin).
  rewrite (keydown_calls p "ArrowRight" Hini) in Hi'.
  change (Spec.run totalSlides (key_calls (handleKeyPress "ArrowRight")) (currentSlide (deck p)))
    with (Z.min (currentSlide (deck p) + 1) 8) in Hi'.
  unfold Spec.in_deck, totalSlides in *.
  destruct (IH _ Hr') as (? & ? & Hidx);
    [by rewrite keydown_keeps_initialized | rewrite Hi'; lia |].
  split; [done|]. split; [done|]. rewrite Hidx, Hi'. lia.
Qed.

(** The tabs after an event: unchanged, or the clicked one alone. *)
Lemma dispatch_tabs p e :
  tabs (out_page (dispatch p e)) = tabs p \/
  exists i, e = TabClick i /\ tabs (out_page (dispatch p e)) = clickTab i (tabs p).
Proof.
  unfold dispatch; cbn [out_page set_deck tabs].
  destruct e; simpl; repeat case_match; simplify_eq/=; eauto.
  unfold handleVisibilityChange. case_match; auto.
Qed.

(** ** Properties of the page *)

(** C1: In every page a session reaches over an HTML page of 8 slides and
    8 indicators, the index is in [1..8]; once [DOMContentLoaded] has run,
    exactly one slide and one indicator are active, those at the index, the
    counter shows the index and the total shows 8, and the previous and
    next buttons are disabled exactly at the first and the last slide. *)
Theorem reachable_deck_consistent html tabs0 p :
  reachable html tabs0 p ->
  length (slideActive html) = 8%nat -> length (indicatorActive html) = 8%nat ->
  let d := deck p in let v := view d in
  Spec.in_deck totalSlides (currentSlide d) /\
  (initialized p = true ->
   count_true (slideActive v) = 1%nat /\
   slideActive v !! Z.to_nat (currentSlide d - 1) = Some true /\
   count_true (indicatorActive v) = 1%nat /\
   indicatorActive v !! Z.to_nat (currentSlide d - 1) = Some true /\
   currentSlideText v = jsNumberToString (currentSlide d) /\
   totalSlidesText v = jsNumberToString totalSlides /\
   (prevDisabled v = true <-> currentSlide d = 1) /\
   (nextDisabled v = true <-> currentSlide d = totalSlides)).
Proof.
  intros Hreach Hs Hi. cbv zeta.
  destruct (reachable_inv _ _ _ Hreach) as (Hin & Hsh & _ & Hr).
  split; [exact Hin|]. intros Hini. rewrite Hini in Hsh, Hr.
  unfold view_shape in Hsh. injection Hsh as Hsl Hil Htt.
  unfold Spec.in_deck, totalSlides in Hin.
  destruct (rendered_view (currentSlide (deck p)) (view (deck p))) as (? & ? & ? & ? & ? & ? & ?);
    [by apply Hr | rewrite Hsl, Hs; lia | rewrite Hil, Hi; lia |].
  tauto.
Qed.

Definition sessionEnd : Page :=
  out_page (dispatch (out_page (dispatch (loadPage (htmlView 8) []) DOMContentLoaded))
                     (KeyDown "End")).

Lemma reachable_deck_consistent_witness :
  (reachable (htmlView 8) [] sessionEnd /\
   length (slideActive (htmlView 8)) = 8%nat /\ length (indicatorActive (htmlView 8)) = 8%nat) /\
  nextDisabled (view (deck sessionEnd)) = true.
Proof.
  assert (Hr : reachable (htmlView 8) [] sessionEnd).
  { apply run_deliverable_step; [apply run_deliverable_step; [constructor|]|]; reflexivity. }
  split; [split; [exact Hr | split; reflexivity]|].
  destruct (reachable_deck_consistent _ _ _ Hr eq_refl eq_refl) as [_ H].
  destruct (H eq_refl) as (_ & _ & _ & _ & _ & _ & _ & Hnext).
  apply Hnext. reflexivity.
Defined.

(** C2: Refinement of the page to the specification: in a reachable page,
    every event moves the index exactly as the clamping specification runs
    the controller calls its listeners make. *)
Theorem dispatch_refines_spec html tabs0 p e :
  reachable html tabs0 p ->
  currentSlide (deck (out_page (dispatch p e))) =
    Spec.run totalSlides (r_calls (handle p e)) (currentSlide (deck p)).
Proof.
  intros Hreach. apply dispatch_index. apply (reachable_inv _ _ _ Hreach).
Qed.

Lemma dispatch_refines_spec_witness :
  reachable (htmlView 8) [] (loadPage (htmlView 8) []) /\
  currentSlide (deck (out_page (dispatch (loadPage (htmlView 8) []) (GlobalCall (GoTo 4))))) = 4.
Proof.
  assert (Hr : reachable (htmlView 8) [] (loadPage (htmlView 8) [])) by constructor.
  split; [exact Hr|].
  rewrite (dispatch_refines_spec _ _ _ (GlobalCall (GoTo 4)) Hr). reflexivity.
Defined.

(** C19: When the page becomes hidden, the visibility listener throws a
    [ReferenceError] for the undefined [stopAutoPlay] and changes nothing;
    when it becomes visible, nothing happens. *)
Theorem visibility_hidden_throws p :
  dispatch p (VisibilityChange true) = mkOutcome p false (Some (ReferenceError "stopAutoPlay")) /\
  dispatch p (VisibilityChange false) = mkOutcome p false None.
Proof. unfold dispatch; simpl. by rewrite set_deck_id. Qed.

(** C20: Before [DOMContentLoaded], keys, touches and tab clicks reach no
    listener: the page is unchanged and no default is prevented. *)
Theorem listeners_before_init p e :
  initialized p = false ->
  match e with KeyDown _ | TouchStart _ | TouchEnd _ | TabClick _ => True | _ => False end ->
  dispatch p e = mkOutcome p false None.
Proof.
  intros Hini He. unfold dispatch.
  destruct e; try done; simpl; rewrite Hini; simpl; by rewrite set_deck_id.
Qed.

Lemma listeners_before_init_witness :
  initialized (loadPage (htmlView 8) []) = false /\
  dispatch (loadPage (htmlView 8) []) (KeyDown "End") =
    mkOutcome (loadPage (htmlView 8) []) false None.
Proof.
  split; [reflexivity|]. apply listeners_before_init; [reflexivity | exact I].
Defined.

(** C21: The mouse listeners are registered at load time, before
    [DOMContentLoaded]: in every page a session reaches before [init] has
    run, an armed drag released at [x] moves the index as the swipe from
    the drag's start to [x] would, re-renders the view when the index
    moved, and leaves the total as the HTML had it (not yet written). *)
Theorem drag_before_init_navigates html tabs0 p x :
  reachable html tabs0 p -> initialized p = false -> isMouseDown (mouse p) = true ->
  let p' := out_page (dispatch p (MouseUp x)) in
  initialized p' = false /\
  currentSlide (deck p') =
    Spec.run totalSlides (handleSwipe (mkTouch (mouseStartX (mouse p)) x)) (currentSlide (deck p)) /\
  totalSlidesText (view (deck p')) = totalSlidesText html /\
  (currentSlide (deck p') <> currentSlide (deck p) ->
   rendered (currentSlide (deck p')) (view (deck p'))).
Proof.
  intros Hr Hini Harm. cbv zeta.
  destruct (reachable_inv _ _ _ Hr) as (Hin & Hsh & _). rewrite Hini in Hsh.
  destruct (handle_frame p (MouseUp x) ltac:(done)) as (Hd & Hi & _).
  assert (Hc : r_calls (handle p (MouseUp x)) = handleSwipe (mkTouch (mouseStartX (mouse p)) x)).
  { destruct (mouse p) as [s b] eqn:Em; simpl in Harm; subst b.
    rewrite <- mouseup_armed_calls. simpl. rewrite Em. by destruct (onMouseUp x (mkMouse s true)). }
  change (initialized (out_page (dispatch p (MouseUp x)))) with (initialized (r_page (handle p (MouseUp x)))).
  change (deck (out_page (dispatch p (MouseUp x)))) with
    (perform (r_calls (handle p (MouseUp x))) (deck (r_page (handle p (MouseUp x))))).
  rewrite Hi, Hd, Hc. split; [done|]. split; [exact (perform_index totalSlides _ _ Hin)|].
  split; [|by apply perform_moved_rendered].
  pose proof (f_equal snd (perform_shape (handleSwipe (mkTouch (mouseStartX (mouse p)) x)) (deck p))) as Ht.
  unfold view_shape in Ht, Hsh. simpl in Ht. rewrite Ht. by injection Hsh.
Qed.

Definition pressedPage : Page := out_page (dispatch (loadPage (htmlView 8) []) (MouseDown true 300)).

Lemma drag_before_init_navigates_witness :
  (reachable (htmlView 8) [] pressedPage /\ initialized pressedPage = false /\
   isMouseDown (mouse pressedPage) = true) /\
  currentSlide (deck (out_page (dispatch pressedPage (MouseUp 100)))) = 2.
Proof.
  assert (Hr : reachable (htmlView 8) [] pressedPage) by (apply reach_step; [constructor | reflexivity]).
  split; [split; [exact Hr | split; reflexivity]|].
  destruct (drag_before_init_navigates _ _ _ 100 Hr eq_refl eq_refl) as (_ & -> & _).
  reflexivity.
Defined.

(** C22: [DOMContentLoaded] keeps the index, writes the total, renders the
    index, resets the touch positions to 0, registers the listeners, makes
    the body transparent and schedules the fade-in; the timer then makes it
    opaque. *)
Theorem domContentLoaded_effect p :
  let p' := out_page (dispatch p DOMContentLoaded) in
  initialized p' = true /\ currentSlide (deck p') = currentSlide (deck p) /\
  rendered (currentSlide (deck p')) (view (deck p')) /\
  totalSlidesText (view (deck p')) = jsNumberToString totalSlides /\
  touch p' = initTouch /\ bodyOpacity p' = "0" /\ fadePending p' = true /\
  bodyOpacity (out_page (dispatch p' FadeTimeout)) = "1" /\
  fadePending (out_page (dispatch p' FadeTimeout)) = false.
Proof. repeat split; simpl; auto using rendered_update. Qed.

(** C25: Liveness of navigation: from every page a session reaches after
    [DOMContentLoaded], every slide [k] of the deck is reached by the keys
    [Home] and then [k - 1] right arrows. *)
Theorem navigate_to_any_slide html tabs0 p k :
  reachable html tabs0 p -> initialized p = true -> Spec.in_deck totalSlides k ->
  let p' := fst (run p (KeyDown "Home" :: repeat (KeyDown "ArrowRight") (Z.to_nat (k - 1)))) in
  reachable html tabs0 p' /\ currentSlide (deck p') = k.
Proof.
  intros Hr Hini Hk. cbv zeta. rewrite run_cons by done.
  destruct (reachable_inv _ _ _ Hr) as (Hin & _).
  assert (Hr' := reach_step _ _ _ (KeyDown "Home") Hr eq_refl).
  assert (Hi' := dispatch_index p (KeyDown "Home") Hin).
  rewrite (keydown_calls p "Home" Hini) in Hi'.
  change (Spec.run totalSlides (key_calls (handleKeyPress "Home")) (currentSlide (deck p)))
    with 1 in Hi'.
  unfold Spec.in_deck, totalSlides in *.
  destruct (run_arrows _ _ _ (Z.to_nat (k - 1)) Hr') as (? & _ & Hidx);
    [by rewrite keydown_keeps_initialized | rewrite Hi'; unfold totalSlides; lia |].
  split; [done|]. rewrite Hidx, Hi'. lia.
Qed.

Lemma navigate_to_any_slide_witness :
  (reachable (htmlView 8) [] sessionEnd /\ initialized sessionEnd = true /\
   Spec.in_deck totalSlides 6) /\
  currentSlide (deck (fst (run sessionEnd
    (KeyDown "Home" :: repeat (KeyDown "ArrowRight") (Z.to_nat (6 - 1)))))) = 6.
Proof.
  assert (Hr : reachable (htmlView 8) [] sessionEnd).
  { apply run_deliverable_step; [apply run_deliverable_step; [constructor|]|]; reflexivity. }
  assert (Hk : Spec.in_deck totalSlides 6) by (unfold Spec.in_deck, totalSlides; lia).
  split; [split; [exact Hr | split; [reflexivity | exact Hk]]|].
  exact (proj2 (navigate_to_any_slide _ _ _ 6 Hr eq_refl Hk)).
Defined.

(** C33: If the HTML marks at most one demo tab active, no session ever
    shows two active tabs; after a click exactly the clicked tab is. *)
Theorem reachable_tabs_at_most_one html tabs0 p :
  reachable html tabs0 p -> (count_true tabs0 <= 1)%nat ->
  (count_true (tabs p) <= 1)%nat.
Proof.
  intros Hr H0. induction Hr as [|p e Hr IH Hdel]; [done|].
  destruct (dispatch_tabs p e) as [-> | [i [-> ->]]]; [done|].
  rewrite count_clickTab; [lia|]. simpl in Hdel. by apply bool_decide_eq_true in Hdel.
Qed.

Lemma reachable_tabs_at_most_one_witness :
  (reachable (htmlView 8) [true; false; false]
     (out_page (dispatch (out_page (dispatch (loadPage (htmlView 8) [true; false; false])
                                     DOMContentLoaded)) (TabClick 2))) /\
   (count_true [true; false; false] <= 1)%nat) /\
  (count_true (tabs (out_page (dispatch (out_page (dispatch
      (loadPage (htmlView 8) [true; false; false]) DOMContentLoaded)) (TabClick 2)))) <= 1)%nat.
Proof.
  assert (Hr : reachable (htmlView 8) [true; false; false]
     (out_page (dispatch (out_page (dispatch (loadPage (htmlView 8) [true; false; false])
                                     DOMContentLoaded)) (TabClick 2)))).
  { apply run_deliverable_step; [apply run_deliverable_step; [constructor|]|]; reflexivity. }
  assert (H0 : (count_true [true; false; false] <= 1)%nat) by (simpl; lia).
  split; [split; assumption|]. exact (reachable_tabs_at_most_one _ _ _ Hr H0).
Defined.

(** C24: The context menu is always suppressed and changes nothing. *)
Theorem contextmenu_prevented p :
  dispatch p ContextMenu = mkOutcome p true None.
Proof. unfold dispatch; simpl. by rewrite set_deck_id. Qed.

End Page.
